(** * AR Mine relay server: a shallow embedding of [src/server/server.js]

    The Socket.IO relay of the repository keeps one table of rooms
    ([const rooms = new Map()]), keyed by a four-digit code, and reacts to
    the events of the connected sockets.  This file embeds the event
    handlers of [server.js] as Rocq functions over an explicit store and
    proves the properties the specification states about them.

    Conventions of the embedding:
    - a value received from a client is a [jsval] (the JSON values plus
      [undefined], which is what reading a missing property gives);
    - the room table is a [gmap string Room]; the handlers take the table
      and the socket they were registered on and return the new table, the
      new socket fields and the list of actions they performed, in order;
    - [Math.random] is a tape of the numbers it will return, [Date.now] and
      [new Date().toISOString()] are a clock reading passed to the handler;
    - arithmetic on JS numbers is done on rationals ([Q]); writing the room
      file ([fs.writeFileSync]) is an action that succeeds. *)

From Stdlib Require Import ZArith QArith Qround String Ascii List Lia.
From Stdlib Require Import DecimalString DecimalZ.
From stdpp Require Import base option gmap strings list fin_maps fin_sets.

Local Open Scope string_scope.
Local Open Scope list_scope.

Set Warnings "-register-all,-clear-no-such-hyp,-abstract-large-number".

(** ** JavaScript values *)

Module Js.

(** The values a Socket.IO client can send (decoded JSON), and
    [undefined]. *)
Inductive jsval : Type :=
| JUndefined
| JNull
| JBool (b : bool)
| JNum (q : Q)
| JStr (s : string)
| JArr (items : list jsval)
| JObj (fields : list (string * jsval)).

(** [ToBoolean]: [undefined], [null], [false], [0] and the empty string
    are falsy, everything else is truthy. *)
Definition truthy (v : jsval) : bool :=
  match v with
  | JUndefined | JNull => false
  | JBool b => b
  | JNum q => negb (Qeq_bool q 0)
  | JStr s => negb (String.eqb s "")
  | JArr _ | JObj _ => true
  end.

(** [a || b] *)
Definition or_else (a b : jsval) : jsval := if truthy a then a else b.

Fixpoint assoc (k : string) (fields : list (string * jsval)) : jsval :=
  match fields with
  | [] => JUndefined
  | (k', v) :: rest => if String.eqb k k' then v else assoc k rest
  end.

(** [v.k] for a property name [k] that no primitive wrapper and no array
    defines: a [TypeError] ([None]) on [undefined] and [null], the field
    of an object, [undefined] otherwise. *)
Definition get (v : jsval) (k : string) : option jsval :=
  match v with
  | JUndefined | JNull => None
  | JObj fields => Some (assoc k fields)
  | _ => Some JUndefined
  end.

(** [s !== v] for a string [s] *)
Definition str_strict_ne (s : string) (v : jsval) : bool :=
  match v with
  | JStr s' => negb (String.eqb s s')
  | _ => true
  end.

(** [v !== undefined] *)
Definition is_defined (v : jsval) : bool :=
  match v with
  | JUndefined => false
  | _ => true
  end.

(** [n.toString()] for an integer [n] *)
Definition int_to_string (n : Z) : string :=
  NilZero.string_of_int (Z.to_int n).

(** Truthiness of a value that is a string or [null]/[undefined]
    ([socket.id], [socket.roomId], a role slot of a room). *)
Definition truthy_str (o : option string) : bool :=
  match o with
  | Some s => negb (String.eqb s "")
  | None => false
  end.

End Js.
Import Js.

(** ** Data model *)

(** The payload of an annotation; the [type] field of the JS object is the
    constructor.  The fields hold what the client sent or the default. *)
Inductive AnnotationBody : Type :=
| Danger (position radius label : jsval)
| Arrow (start end_ label : jsval)
| Incident (position date description severity : jsval)
| Restricted (vertices active : jsval).

Record Annotation : Type := mkAnnotation {
  ann_id : string;
  ann_body : AnnotationBody;
  ann_createdAt : string
}.


(** A room of the table: [{displaySocket, controllerSocket, annotations,
    createdAt}]; a slot is a socket id or [null]. *)
Record Room : Type := mkRoom {
  displaySocket : option string;
  controllerSocket : option string;
  annotations : list Annotation;
  createdAt : string
}.

Inductive DeviceType : Type := Display | Controller.

(** The fields of a socket the handlers read and write: [socket.id],
    [socket.roomId] and [socket.deviceType] (the last two [undefined] until
    a handler sets them). *)
Record Socket : Type := mkSocket {
  sock_id : string;
  roomId : option string;
  deviceType : option DeviceType
}.

(** One reading of the clock: [Date.now()] and
    [new Date().toISOString()]. *)
Record Clock : Type := mkClock {
  date_now : Z;
  iso_now : string
}.

(** The object passed to the acknowledgement callback. *)
Record Ack : Type := mkAck {
  success : bool;
  ack_roomCode : option string;
  ack_annotations : option (list Annotation);
  ack_hasController : option bool;
  ack_error : option string
}.

Definition ack_created (code : string) : Ack :=
  mkAck true (Some code) None None None.
Definition ack_annotations_only (l : list Annotation) : Ack :=
  mkAck true None (Some l) None None.
Definition ack_display (l : list Annotation) (has : bool) : Ack :=
  mkAck true None (Some l) (Some has) None.
Definition ack_failure (msg : string) : Ack :=
  mkAck false None None None (Some msg).

(** The second argument of [emit]. *)
Inductive Payload : Type :=
| NoPayload
| OfAnnotation (a : Annotation)
| OfRemoved (id : jsval)
| OfMovement (rotation speed : jsval)
| OfTouch (movement isRunning : jsval)
| OfPlacement (type callback : jsval)
| OfValue (v : jsval).

(** What a handler does besides changing the table and the socket, in
    program order: [callback(a)], [socket.join(room)],
    [io.to(target).emit(event, payload)] and the file written by
    [saveRoomState].  [console.log] is left out. *)
Inductive Action : Type :=
| Callback (a : Ack)
| Join (socket : string) (room : string)
| Emit (target : option string) (event : string) (payload : Payload)
| Save (code : string) (room : Room).

(** How a handler ends: it returns, it throws a [TypeError], or its loop
    is still running when the tape of random numbers is used up. *)
Inductive Outcome (A : Type) : Type :=
| Done (a : A)
| Thrown
| Spinning.
Arguments Done {A} a.
Arguments Thrown {A}.
Arguments Spinning {A}.

#[global] Instance Outcome_ret : MRet Outcome := fun A a => Done a.
#[global] Instance Outcome_bind : MBind Outcome := fun A B k o =>
  match o with
  | Done a => k a
  | Thrown => Thrown
  | Spinning => Spinning
  end.

(** Reading a property of the event argument: throws when there is no
    object to read from. *)
Definition prop (data : jsval) (k : string) : Outcome jsval :=
  match get data k with
  | Some v => Done v
  | None => Thrown
  end.

(** ** The room table *)

(** [rooms.get(v)]: the keys of the table are strings, so only a string
    finds a room.  The key is returned with the room: it stands for the
    reference through which the handler then mutates the stored object. *)
Definition rooms_get (rooms : gmap string Room) (v : jsval) : option (string * Room) :=
  match v with
  | JStr code => match rooms !! code with
                 | Some room => Some (code, room)
                 | None => None
                 end
  | _ => None
  end.

(** [rooms.has(code)] *)
Definition rooms_has (rooms : gmap string Room) (code : string) : bool :=
  match rooms !! code with
  | Some _ => true
  | None => false
  end.

(** [Math.floor(1000 + r * 9000).toString()] for a value [r] of
    [Math.random()]. *)
Definition draw_code (r : Q) : string :=
  int_to_string (Qfloor (1000 + r * 9000)).

(** [generateRoomCode]: the [do ... while (rooms.has(code))] loop, on the
    tape of the values [Math.random()] returns.  [None]: every value of the
    tape gave a code in use, the loop is still running. *)
Fixpoint generateRoomCode (rooms : gmap string Room) (tape : list Q)
  : option (string * list Q) :=
  match tape with
  | [] => None
  | r :: tape' =>
      let code := draw_code r in
      if rooms_has rooms code then generateRoomCode rooms tape'
      else Some (code, tape')
  end.

(** [saveRoomState(roomId)] *)
Definition saveRoomState (rooms : gmap string Room) (roomId : jsval) : list Action :=
  match rooms_get rooms roomId with
  | Some (code, room) => [Save code room]
  | None => []
  end.

(** ** The event handlers *)

(** What a handler leaves behind: the table, the fields of its socket and
    the actions it performed. *)
Record Reply : Type := mkReply {
  rooms_of : gmap string Room;
  socket_of : Socket;
  actions_of : list Action
}.

Definition set_displaySocket (v : option string) (room : Room) : Room :=
  mkRoom v (controllerSocket room) (annotations room) (createdAt room).
Definition set_controllerSocket (v : option string) (room : Room) : Room :=
  mkRoom (displaySocket room) v (annotations room) (createdAt room).
Definition set_annotations (l : list Annotation) (room : Room) : Room :=
  mkRoom (displaySocket room) (controllerSocket room) l (createdAt room).

Definition bound (socket : Socket) (code : string) (d : DeviceType) : Socket :=
  mkSocket (sock_id socket) (Some code) (Some d).

(** [if (callback) callback(a)]; [callback] is the acknowledgement function
    of Socket.IO when the client asked for one, and [undefined] otherwise. *)
Definition ack (callback : bool) (a : Ack) : list Action :=
  if callback then [Callback a] else [].

(** [socket.on('create-room', ...)] *)
Definition create_room (clock : Clock) (socket : Socket) (callback : bool)
    (rooms : gmap string Room) (tape : list Q) : Outcome (Reply * list Q) :=
  match generateRoomCode rooms tape with
  | None => Spinning
  | Some (roomCode, tape') =>
      Done (mkReply
              (<[roomCode := mkRoom (Some (sock_id socket)) None [] (iso_now clock)]> rooms)
              (bound socket roomCode Display)
              (Join (sock_id socket) roomCode :: ack callback (ack_created roomCode)),
            tape')
  end.

(** [socket.on('join-room', ...)] *)
Definition join_room (socket : Socket) (roomCode : jsval) (callback : bool)
    (rooms : gmap string Room) : Outcome Reply :=
  match rooms_get rooms roomCode with
  | None => Done (mkReply rooms socket (ack callback (ack_failure "Room not found")))
  | Some (code, room) =>
      let room' := set_controllerSocket (Some (sock_id socket)) room in
      Done (mkReply (<[code := room']> rooms)
              (bound socket code Controller)
              (Join (sock_id socket) code
               :: Emit (displaySocket room') "controller-connected" NoPayload
               :: ack callback (ack_annotations_only (annotations room'))))
  end.

(** The three handlers that forward to the display:
    [tablet-movement], [touch-movement], [toggle-flashlight]. *)
Definition tablet_movement (socket : Socket) (data : jsval)
    (rooms : gmap string Room) : Outcome Reply :=
  v ← prop data "roomId";
  match rooms_get rooms v with
  | Some (_, room) =>
      if truthy_str (displaySocket room) then
        rotation ← prop data "rotation";
        speed ← prop data "speed";
        mret (mkReply rooms socket
                [Emit (displaySocket room) "movement-update" (OfMovement rotation speed)])
      else mret (mkReply rooms socket [])
  | None => mret (mkReply rooms socket [])
  end.

Definition touch_movement (socket : Socket) (data : jsval)
    (rooms : gmap string Room) : Outcome Reply :=
  v ← prop data "roomId";
  match rooms_get rooms v with
  | Some (_, room) =>
      if truthy_str (displaySocket room) then
        movement ← prop data "movement";
        isRunning ← prop data "isRunning";
        mret (mkReply rooms socket
                [Emit (displaySocket room) "touch-movement-update" (OfTouch movement isRunning)])
      else mret (mkReply rooms socket [])
  | None => mret (mkReply rooms socket [])
  end.

Definition toggle_flashlight (socket : Socket) (data : jsval)
    (rooms : gmap string Room) : Outcome Reply :=
  v ← prop data "roomId";
  match rooms_get rooms v with
  | Some (_, room) =>
      if truthy_str (displaySocket room) then
        mret (mkReply rooms socket [Emit (displaySocket room) "flashlight-toggle" NoPayload])
      else mret (mkReply rooms socket [])
  | None => mret (mkReply rooms socket [])
  end.

(** The common end of the four [add-...] handlers:
    [room.annotations.push(annotation); saveRoomState(data.roomId);
     io.to(data.roomId).emit('annotation-added', annotation)]. *)
Definition push_annotation (socket : Socket) (rooms : gmap string Room)
    (code : string) (room : Room) (annotation : Annotation) : Reply :=
  let rooms' := <[code := set_annotations (annotations room ++ [annotation]) room]> rooms in
  mkReply rooms' socket
    (saveRoomState rooms' (JStr code)
     ++ [Emit (Some code) "annotation-added" (OfAnnotation annotation)]).

(** [socket.on('add-danger-zone', ...)] *)
Definition add_danger_zone (clock : Clock) (socket : Socket) (data : jsval)
    (rooms : gmap string Room) : Outcome Reply :=
  v ← prop data "roomId";
  match rooms_get rooms v with
  | Some (code, room) =>
      position ← prop data "position";
      radius ← prop data "radius";
      label ← prop data "label";
      let annotation :=
        mkAnnotation ("danger_" ++ int_to_string (date_now clock))
          (Danger position (or_else radius (JNum 5)) (or_else label (JStr "Danger Zone")))
          (iso_now clock) in
      mret (push_annotation socket rooms code room annotation)
  | None => mret (mkReply rooms socket [])
  end.

(** [socket.on('add-arrow', ...)] *)
Definition add_arrow (clock : Clock) (socket : Socket) (data : jsval)
    (rooms : gmap string Room) : Outcome Reply :=
  v ← prop data "roomId";
  match rooms_get rooms v with
  | Some (code, room) =>
      start ← prop data "start";
      end_ ← prop data "end";
      label ← prop data "label";
      let annotation :=
        mkAnnotation ("arrow_" ++ int_to_string (date_now clock))
          (Arrow start end_ (or_else label (JStr "Direction")))
          (iso_now clock) in
      mret (push_annotation socket rooms code room annotation)
  | None => mret (mkReply rooms socket [])
  end.

(** [s.split('T')[0]] *)
Fixpoint before_T (s : string) : string :=
  match s with
  | EmptyString => EmptyString
  | String c rest => if Ascii.eqb c "T"%char then EmptyString else String c (before_T rest)
  end.

(** [socket.on('add-incident', ...)] *)
Definition add_incident (clock : Clock) (socket : Socket) (data : jsval)
    (rooms : gmap string Room) : Outcome Reply :=
  v ← prop data "roomId";
  match rooms_get rooms v with
  | Some (code, room) =>
      position ← prop data "position";
      date ← prop data "date";
      description ← prop data "description";
      severity ← prop data "severity";
      let annotation :=
        mkAnnotation ("incident_" ++ int_to_string (date_now clock))
          (Incident position
             (or_else date (JStr (before_T (iso_now clock))))
             (or_else description (JStr "Incident reported"))
             (or_else severity (JStr "medium")))
          (iso_now clock) in
      mret (push_annotation socket rooms code room annotation)
  | None => mret (mkReply rooms socket [])
  end.

(** [socket.on('add-restricted-zone', ...)] *)
Definition add_restricted_zone (clock : Clock) (socket : Socket) (data : jsval)
    (rooms : gmap string Room) : Outcome Reply :=
  v ← prop data "roomId";
  match rooms_get rooms v with
  | Some (code, room) =>
      vertices ← prop data "vertices";
      active ← prop data "active";
      let annotation :=
        mkAnnotation ("restricted_" ++ int_to_string (date_now clock))
          (Restricted vertices (if is_defined active then active else JBool true))
          (iso_now clock) in
      mret (push_annotation socket rooms code room annotation)
  | None => mret (mkReply rooms socket [])
  end.

(** [socket.on('clear-annotations', ...)] *)
Definition clear_annotations (socket : Socket) (data : jsval)
    (rooms : gmap string Room) : Outcome Reply :=
  v ← prop data "roomId";
  match rooms_get rooms v with
  | Some (code, room) =>
      let rooms' := <[code := set_annotations [] room]> rooms in
      mret (mkReply rooms' socket
              (saveRoomState rooms' v ++ [Emit (Some code) "annotations-cleared" NoPayload]))
  | None => mret (mkReply rooms socket [])
  end.

(** [room.annotations.filter(a => a.id !== annotationId)] *)
Definition without_id (annotationId : jsval) (l : list Annotation) : list Annotation :=
  List.filter (fun a => str_strict_ne (ann_id a) annotationId) l.

(** [socket.on('remove-annotation', ...)] *)
Definition remove_annotation (socket : Socket) (data : jsval)
    (rooms : gmap string Room) : Outcome Reply :=
  v ← prop data "roomId";
  match rooms_get rooms v with
  | Some (code, room) =>
      annotationId ← prop data "annotationId";
      let rooms' := <[code := set_annotations (without_id annotationId (annotations room)) room]> rooms in
      mret (mkReply rooms' socket
              (saveRoomState rooms' v
               ++ [Emit (Some code) "annotation-removed" (OfRemoved annotationId)]))
  | None => mret (mkReply rooms socket [])
  end.

(** [socket.on('camera-position', ...)] *)
Definition camera_position (socket : Socket) (data : jsval)
    (rooms : gmap string Room) : Outcome Reply :=
  v ← prop data "roomId";
  match rooms_get rooms v with
  | Some (_, room) =>
      if truthy_str (controllerSocket room) then
        position ← prop data "position";
        mret (mkReply rooms socket
                [Emit (controllerSocket room) "camera-position-update" (OfValue position)])
      else mret (mkReply rooms socket [])
  | None => mret (mkReply rooms socket [])
  end.

(** [socket.on('request-placement', ...)] *)
Definition request_placement (socket : Socket) (data : jsval)
    (rooms : gmap string Room) : Outcome Reply :=
  v ← prop data "roomId";
  match rooms_get rooms v with
  | Some (_, room) =>
      if truthy_str (displaySocket room) then
        type ← prop data "type";
        callback ← prop data "callback";
        mret (mkReply rooms socket
                [Emit (displaySocket room) "get-placement-position" (OfPlacement type callback)])
      else mret (mkReply rooms socket [])
  | None => mret (mkReply rooms socket [])
  end.

(** [socket.on('placement-position', ...)] *)
Definition placement_position (socket : Socket) (data : jsval)
    (rooms : gmap string Room) : Outcome Reply :=
  v ← prop data "roomId";
  match rooms_get rooms v with
  | Some (_, room) =>
      if truthy_str (controllerSocket room) then
        position ← prop data "position";
        mret (mkReply rooms socket
                [Emit (controllerSocket room) "placement-position-response" (OfValue position)])
      else mret (mkReply rooms socket [])
  | None => mret (mkReply rooms socket [])
  end.

(** [socket.roomId] as a value *)
Definition roomId_value (socket : Socket) : jsval :=
  match roomId socket with
  | Some code => JStr code
  | None => JUndefined
  end.

(** [socket.on('disconnect', ...)] *)
Definition disconnect (socket : Socket) (rooms : gmap string Room) : Outcome Reply :=
  if truthy (roomId_value socket) then
    match rooms_get rooms (roomId_value socket) with
    | Some (code, room) =>
        match deviceType socket with
        | Some Display =>
            Done (mkReply (<[code := set_displaySocket None room]> rooms) socket
                    (if truthy_str (controllerSocket room)
                     then [Emit (controllerSocket room) "display-disconnected" NoPayload]
                     else []))
        | Some Controller =>
            Done (mkReply (<[code := set_controllerSocket None room]> rooms) socket
                    (if truthy_str (displaySocket room)
                     then [Emit (displaySocket room) "controller-disconnected" NoPayload]
                     else []))
        | None => Done (mkReply rooms socket [])
        end
    | None => Done (mkReply rooms socket [])
    end
  else Done (mkReply rooms socket []).

(** [v === s] for a string literal [s] *)
Definition is_str (s : string) (v : jsval) : bool := negb (str_strict_ne s v).

(** [room.controllerSocket !== null] *)
Definition not_null (slot : option string) : bool :=
  match slot with
  | Some _ => true
  | None => false
  end.

(** [socket.on('reconnect-room', ...)] *)
Definition reconnect_room (socket : Socket) (data : jsval) (callback : bool)
    (rooms : gmap string Room) : Outcome Reply :=
  v ← prop data "roomId";
  match rooms_get rooms v with
  | Some (code, room) =>
      role ← prop data "deviceType";
      if is_str "display" role && negb (truthy_str (displaySocket room)) then
        let room' := set_displaySocket (Some (sock_id socket)) room in
        mret (mkReply (<[code := room']> rooms) (bound socket code Display)
                (Join (sock_id socket) code
                 :: ack callback (ack_display (annotations room')
                                    (not_null (controllerSocket room')))))
      else if is_str "controller" role && negb (truthy_str (controllerSocket room)) then
        let room' := set_controllerSocket (Some (sock_id socket)) room in
        mret (mkReply (<[code := room']> rooms) (bound socket code Controller)
                (Join (sock_id socket) code
                 :: (if truthy_str (displaySocket room')
                     then [Emit (displaySocket room') "controller-connected" NoPayload]
                     else [])
                 ++ ack callback (ack_annotations_only (annotations room'))))
      else
        mret (mkReply rooms socket (ack callback (ack_failure "Device type already connected")))
  | None => mret (mkReply rooms socket (ack callback (ack_failure "Room not found")))
  end.

(** ** The server as a transition system *)

(** The events a connected socket can deliver, with their arguments. *)
Inductive Message : Type :=
| CreateRoom (callback : bool)
| JoinRoom (roomCode : jsval) (callback : bool)
| TabletMovement (data : jsval)
| TouchMovement (data : jsval)
| ToggleFlashlight (data : jsval)
| AddDangerZone (data : jsval)
| AddArrow (data : jsval)
| AddIncident (data : jsval)
| AddRestrictedZone (data : jsval)
| ClearAnnotations (data : jsval)
| RemoveAnnotation (data : jsval)
| CameraPosition (data : jsval)
| RequestPlacement (data : jsval)
| PlacementPosition (data : jsval)
| Disconnect
| ReconnectRoom (data : jsval) (callback : bool).

(** The whole process: the room table, what [Math.random] has left to
    return, and the sockets that are connected. *)
Record Server : Type := mkServer {
  rooms : gmap string Room;
  tape : list Q;
  sockets : gmap string Socket
}.

(** One occurrence of an event: the clock when it is handled, the socket
    it comes from, and either the new connection or a message. *)
Inductive Event : Type :=
| Connection (id : string)
| Received (clock : Clock) (id : string) (msg : Message).

(** The handler registered for a message, on the room table. *)
Definition handle (clock : Clock) (socket : Socket) (msg : Message)
    (rooms : gmap string Room) (tape : list Q) : Outcome (Reply * list Q) :=
  match msg with
  | CreateRoom callback => create_room clock socket callback rooms tape
  | JoinRoom roomCode callback => r ← join_room socket roomCode callback rooms; mret (r, tape)
  | TabletMovement data => r ← tablet_movement socket data rooms; mret (r, tape)
  | TouchMovement data => r ← touch_movement socket data rooms; mret (r, tape)
  | ToggleFlashlight data => r ← toggle_flashlight socket data rooms; mret (r, tape)
  | AddDangerZone data => r ← add_danger_zone clock socket data rooms; mret (r, tape)
  | AddArrow data => r ← add_arrow clock socket data rooms; mret (r, tape)
  | AddIncident data => r ← add_incident clock socket data rooms; mret (r, tape)
  | AddRestrictedZone data => r ← add_restricted_zone clock socket data rooms; mret (r, tape)
  | ClearAnnotations data => r ← clear_annotations socket data rooms; mret (r, tape)
  | RemoveAnnotation data => r ← remove_annotation socket data rooms; mret (r, tape)
  | CameraPosition data => r ← camera_position socket data rooms; mret (r, tape)
  | RequestPlacement data => r ← request_placement socket data rooms; mret (r, tape)
  | PlacementPosition data => r ← placement_position socket data rooms; mret (r, tape)
  | Disconnect => r ← disconnect socket rooms; mret (r, tape)
  | ReconnectRoom data callback => r ← reconnect_room socket data callback rooms; mret (r, tape)
  end.

(** One event: [io.on('connection', ...)] registers a socket with no room
    and no device type; a message runs its handler on the socket it came
    from (a message of a socket that is not connected is not delivered);
    after its [disconnect] handler the socket is gone. *)
Definition step (ev : Event) (s : Server) : Outcome (Server * list Action) :=
  match ev with
  | Connection id =>
      Done (mkServer (rooms s) (tape s) (<[id := mkSocket id None None]> (sockets s)), [])
  | Received clock id msg =>
      match sockets s !! id with
      | None => Done (s, [])
      | Some socket =>
          '(r, tape') ← handle clock socket msg (rooms s) (tape s);
          let sockets' :=
            match msg with
            | Disconnect => delete id (sockets s)
            | _ => <[id := socket_of r]> (sockets s)
            end in
          mret (mkServer (rooms_of r) tape' sockets', actions_of r)
      end
  end.

(** A run of the server over a sequence of events; the transcript pairs
    every event with the actions its handler performed. *)
Fixpoint run (evs : list Event) (s : Server)
  : Outcome (Server * list (Event * list Action)) :=
  match evs with
  | [] => Done (s, [])
  | ev :: evs' =>
      '(s1, acts) ← step ev s;
      '(s2, log) ← run evs' s1;
      mret (s2, (ev, acts) :: log)
  end.

Definition initial (tape : list Q) : Server := mkServer ∅ tape ∅.

(** ** Vocabulary of the specification *)

(** The number a string of decimal digits denotes; [None] when the string
    is empty or has another character. *)
Definition digit_value (c : ascii) : option Z :=
  let n := Z.of_nat (nat_of_ascii c) in
  if (48 <=? n)%Z && (n <=? 57)%Z then Some (n - 48)%Z else None.

Fixpoint digits_value (acc : Z) (s : string) : option Z :=
  match s with
  | EmptyString => Some acc
  | String c rest =>
      match digit_value c with
      | Some d => digits_value (10 * acc + d) rest
      | None => None
      end
  end.

Definition decimal_value (s : string) : option Z :=
  match s with
  | EmptyString => None
  | _ => digits_value 0 s
  end.

(** A room code as the specification describes it: four decimal digits
    whose value lies in [1000, 9999]. *)
Definition is_room_code (s : string) : bool :=
  (String.length s =? 4)%nat &&
  match decimal_value s with
  | Some n => (1000 <=? n)%Z && (n <=? 9999)%Z
  | None => false
  end.

(** A value [Math.random()] can return. *)
Definition valid_draw (r : Q) : Prop := (0 <= r)%Q /\ (r < 1)%Q.

(** The draw that gives the code of number [n]. *)
Definition draw_for (n : Z) : Q := (n - 1000) # 9000.






(** The role slots of a room, by device type. *)
Definition slot (d : DeviceType) (room : Room) : option string :=
  match d with
  | Display => displaySocket room
  | Controller => controllerSocket room
  end.

Definition set_slot (d : DeviceType) (v : option string) (room : Room) : Room :=
  match d with
  | Display => set_displaySocket v room
  | Controller => set_controllerSocket v room
  end.

Definition peer (d : DeviceType) : DeviceType :=
  match d with
  | Display => Controller
  | Controller => Display
  end.

Definition device_name (d : DeviceType) : string :=
  match d with
  | Display => "display"
  | Controller => "controller"
  end.

(** The notification the peer gets when a device of type [d] leaves. *)
Definition disconnected_event (d : DeviceType) : string :=
  match d with
  | Display => "display-disconnected"
  | Controller => "controller-disconnected"
  end.

(** [Removed v l l']: [l'] is [l] without the annotations whose id is the
    value [v], the others in their order. *)
Inductive Removed (v : jsval) : list Annotation -> list Annotation -> Prop :=
| Removed_nil : Removed v [] []
| Removed_drop a l l' : JStr (ann_id a) = v -> Removed v l l' -> Removed v (a :: l) l'
| Removed_keep a l l' : JStr (ann_id a) <> v -> Removed v l l' -> Removed v (a :: l) (a :: l').

Definition is_create (msg : Message) : bool :=
  match msg with
  | CreateRoom _ => true
  | _ => false
  end.

(** The messages that add an annotation. *)
Definition is_add (msg : Message) : bool :=
  match msg with
  | AddDangerZone _ | AddArrow _ | AddIncident _ | AddRestrictedZone _ => true
  | _ => false
  end.

Definition adds_annotation (ev : Event) : bool :=
  match ev with
  | Received _ _ msg => is_add msg
  | Connection _ => false
  end.




(** [rooms'] is [rooms] with at most one room changed, the change
    satisfying [P]. *)
Definition one_room_changed (P : Room -> Room -> Prop)
    (rooms rooms' : gmap string Room) : Prop :=
  rooms' = rooms \/
  exists code room room',
    rooms !! code = Some room /\ rooms' = <[code := room']> rooms /\ P room room'.

(** What the handler of [msg], run on [socket], may do to the room it
    changes: it keeps [createdAt]; unless it is one of the [add-...]
    handlers it leaves an empty annotation sequence empty; and a slot is
    left as it was, cleared, or given the id of the socket. *)
Definition room_change (msg : Message) (socket : Socket) (room room' : Room) : Prop :=
  createdAt room' = createdAt room /\
  (is_add msg = false -> annotations room = [] -> annotations room' = []) /\
  (forall d, slot d room' = slot d room \/ slot d room' = None \/
             slot d room' = Some (sock_id socket)).

(** The ids in the table are ids: the keys and the socket ids held by the
    slots are not the empty string. *)
Definition rooms_named (rooms : gmap string Room) : Prop :=
  forall code room, rooms !! code = Some room ->
    code <> "" /\ forall d id, slot d room = Some id -> id <> "".

Definition sockets_named (sockets : gmap string Socket) : Prop :=
  forall id socket, sockets !! id = Some socket -> sock_id socket = id /\ id <> "".

(** Socket.IO gives every connection a non-empty id. *)
Definition connection_named (ev : Event) : Prop :=
  match ev with
  | Connection id => id <> ""
  | Received _ _ _ => True
  end.


(** The room under [code] exists and has no annotation. *)
Definition cleared (code : string) (rooms : gmap string Room) : Prop :=
  exists room, rooms !! code = Some room /\ annotations room = [].

(** ** The clients of the relay *)

(** The display client keeps its own array of the annotations of its room
    and updates it from the events of the room.  The array only is
    embedded: the meshes the display builds for an annotation are rendering
    and are left out.

    [addAnnotation]: [annotations.push(annotation)]. *)
Definition addAnnotation (annotation : Annotation) (l : list Annotation)
  : list Annotation :=
  l ++ [annotation].

(** [removeAnnotation(id)]: [findIndex(a => a.id === id)], then
    [splice(index, 1)] when an index was found. *)
Fixpoint removeAnnotation (id : jsval) (l : list Annotation) : list Annotation :=
  match l with
  | [] => []
  | a :: rest => if is_str (ann_id a) id then rest else a :: removeAnnotation id rest
  end.

(** [clearAllAnnotations]: [annotations = []]. *)
Definition clearAllAnnotations (l : list Annotation) : list Annotation := [].

(** The handlers the display registers for the annotation events:
    [annotation-added] gets the annotation, [annotation-removed] gets
    [{id}] and removes [data.id], [annotations-cleared] has no argument. *)
Definition display_on (event : string) (payload : Payload) (l : list Annotation)
  : list Annotation :=
  if String.eqb event "annotation-added" then
    match payload with
    | OfAnnotation a => addAnnotation a l
    | _ => l
    end
  else if String.eqb event "annotation-removed" then
    match payload with
    | OfRemoved id => removeAnnotation id l
    | _ => l
    end
  else if String.eqb event "annotations-cleared" then clearAllAnnotations l
  else l.

(** The same events applied with the operations of the server: append,
    filter by id, empty. *)
Definition server_on (event : string) (payload : Payload) (l : list Annotation)
  : list Annotation :=
  if String.eqb event "annotation-added" then
    match payload with
    | OfAnnotation a => l ++ [a]
    | _ => l
    end
  else if String.eqb event "annotation-removed" then
    match payload with
    | OfRemoved id => without_id id l
    | _ => l
    end
  else if String.eqb event "annotations-cleared" then []
  else l.

(** What [io.to(code).emit(...)] delivers to the members of the room
    [code], in order. *)
Definition delivered (code : string) (acts : list Action) : list (string * Payload) :=
  omap (fun act =>
          match act with
          | Emit (Some target) event payload =>
              if String.eqb target code then Some (event, payload) else None
          | _ => None
          end) acts.

Definition replay (on : string -> Payload -> list Annotation -> list Annotation)
    (feed : list (string * Payload)) (l : list Annotation) : list Annotation :=
  fold_left (fun l e => on (fst e) (snd e) l) feed l.

(** All the actions of a run, in order. *)
Definition actions_in (log : list (Event * list Action)) : list Action :=
  concat (List.map snd log).

(** The annotations of the room under [code]; none when there is no such
    room. *)
Definition annotations_of (rooms : gmap string Room) (code : string)
  : list Annotation :=
  match rooms !! code with
  | Some room => annotations room
  | None => []
  end.






(** ** Vocabulary of the further properties *)

(** The object a message carries, when it carries one. *)
Definition msg_data (msg : Message) : option jsval :=
  match msg with
  | CreateRoom _ | JoinRoom _ _ | Disconnect => None
  | TabletMovement data | TouchMovement data | ToggleFlashlight data
  | AddDangerZone data | AddArrow data | AddIncident data | AddRestrictedZone data
  | ClearAnnotations data | RemoveAnnotation data | CameraPosition data
  | RequestPlacement data | PlacementPosition data | ReconnectRoom data _ => Some data
  end.

(** The messages that are only forwarded, and the role they are forwarded
    to. *)
Definition relay_target (msg : Message) : option DeviceType :=
  match msg with
  | TabletMovement _ | TouchMovement _ | ToggleFlashlight _ | RequestPlacement _ =>
      Some Display
  | CameraPosition _ | PlacementPosition _ => Some Controller
  | _ => None
  end.

(** The socket id [target] is bound to the role [d] of the room the
    message names. *)
Definition bound_target (rooms : gmap string Room) (msg : Message)
    (d : DeviceType) (target : string) : Prop :=
  exists data code room,
    msg_data msg = Some data /\ get data "roomId" = Some (JStr code) /\
    rooms !! code = Some room /\ slot d room = Some target /\ target <> "".





(** The messages whose handlers can change the annotations of a room. *)
Definition edits_annotations (msg : Message) : bool :=
  match msg with
  | AddDangerZone _ | AddArrow _ | AddIncident _ | AddRestrictedZone _
  | ClearAnnotations _ | RemoveAnnotation _ => true
  | _ => false
  end.

(** The prefixes of the annotation ids. *)
Definition id_tags : list string := ["danger_"; "arrow_"; "incident_"; "restricted_"].

(** An id made at the clock value [t]. *)
Definition stamped (t : Z) (id : string) : Prop :=
  exists tag, tag ∈ id_tags /\ id = String.append tag (int_to_string t).

(** The values of [Date.now()] at the messages of a run. *)
Definition time_of (ev : Event) : list Z :=
  match ev with
  | Received clock _ _ => [date_now clock]
  | Connection _ => []
  end.

Definition times (evs : list Event) : list Z := concat (List.map time_of evs).

(** The three events that change the annotations of a room. *)
Definition is_annotation_event (event : string) : bool :=
  String.eqb event "annotation-added" || String.eqb event "annotation-removed"
  || String.eqb event "annotations-cleared".

(** [AnnChange ts l feed l']: what one event can do to the annotations [l]
    of a room, with what it delivers to the room: nothing, with no
    annotation event delivered; one annotation appended, with an id made at
    a time of [ts], and delivered as [annotation-added]; the annotations of
    an id dropped, and the id delivered as [annotation-removed]; all
    dropped, and [annotations-cleared] delivered. *)
Inductive AnnChange (ts : list Z) (l : list Annotation)
  : list (string * Payload) -> list Annotation -> Prop :=
| Unchanged feed :
    forallb (fun e => negb (is_annotation_event (fst e))) feed = true ->
    AnnChange ts l feed l
| Appended a :
    (exists t, t ∈ ts /\ stamped t (ann_id a)) ->
    AnnChange ts l [("annotation-added", OfAnnotation a)] (l ++ [a])
| Dropped v :
    AnnChange ts l [("annotation-removed", OfRemoved v)] (without_id v l)
| Emptied :
    AnnChange ts l [("annotations-cleared", NoPayload)] [].

(** The ids of the annotations of every room are pairwise distinct and
    were made at times of [ts]. *)
Definition ids_made_at (ts : list Z) (rooms : gmap string Room) : Prop :=
  forall code,
    NoDup (ann_id <$> annotations_of rooms code) /\
    forall a, a ∈ annotations_of rooms code -> exists t, t ∈ ts /\ stamped t (ann_id a).

(** The number of annotations of [l] whose id is the value [v]. *)
Definition count_id (v : jsval) (l : list Annotation) : nat :=
  length (List.filter (fun a => is_str (ann_id a) v) l).

(** ** The code space *)

Lemma code_space_checked :
  forallb (fun n => is_room_code (int_to_string n)
                    && match decimal_value (int_to_string n) with
                       | Some m => (m =? n)%Z
                       | None => false
                       end)
          (seqZ 1000 9000) = true.
Proof. vm_compute. reflexivity. Qed.

Lemma code_space n :
  (1000 <= n <= 9999)%Z ->
  is_room_code (int_to_string n) = true /\ decimal_value (int_to_string n) = Some n.
Proof.
  intros Hn.
  pose proof code_space_checked as H.
  rewrite forallb_forall in H.
  assert (Hin : In n (seqZ 1000 9000)).
  { apply list_elem_of_In, elem_of_seqZ. lia. }
  apply H, andb_prop in Hin as [H1 H2].
  split; [exact H1|].
  destruct (decimal_value (int_to_string n)) as [m|]; [|discriminate].
  apply Z.eqb_eq in H2. by subst.
Qed.


Lemma draw_range r :
  valid_draw r -> (1000 <= Qfloor (1000 + r * 9000) <= 9999)%Z.
Proof.
  intros [H0 H1]. split.
  - rewrite <- (Qfloor_Z 1000). apply Qfloor_resp_le.
    rewrite <- (Qplus_0_r (inject_Z 1000)) at 1.
    apply Qplus_le_r. apply Qmult_le_0_compat; [exact H0 | discriminate].
  - assert (Hlt : (Qfloor (1000 + r * 9000) < 10000)%Z); [|lia].
    rewrite Zlt_Qlt.
    eapply Qle_lt_trans; [apply Qfloor_le|].
    apply Qlt_le_trans with (1000 + 1 * 9000)%Q; [|discriminate].
    apply Qplus_lt_r. apply Qmult_lt_r; [reflexivity | exact H1].
Qed.

Lemma draw_code_is_room_code r : valid_draw r -> is_room_code (draw_code r) = true.
Proof. intros H. apply code_space, draw_range, H. Qed.



(** ** The allocator *)

Lemma rooms_has_false (rooms : gmap string Room) code :
  rooms_has rooms code = false <-> rooms !! code = None.
Proof. unfold rooms_has. destruct (rooms !! code); split; congruence. Qed.

Lemma rooms_has_true (rooms : gmap string Room) code :
  rooms_has rooms code = true <-> code ∈ dom rooms.
Proof.
  rewrite elem_of_dom. unfold rooms_has.
  destruct (rooms !! code); split; intros H; try done.
Qed.

(** The loop returns the code of the first draw that is free, and hands
    back the rest of the tape. *)
Lemma generateRoomCode_Some (rooms : gmap string Room) tape code tape' :
  generateRoomCode rooms tape = Some (code, tape') ->
  exists busy r,
    tape = busy ++ r :: tape' /\ code = draw_code r /\
    rooms !! code = None /\
    Forall (fun r' => rooms_has rooms (draw_code r') = true) busy.
Proof.
  induction tape as [|r tape IH]; simpl; [discriminate|].
  destruct (rooms_has rooms (draw_code r)) eqn:Hhas.
  - intros (busy & r0 & -> & Hc & Hfree & Hbusy)%IH.
    exists (r :: busy), r0. repeat split; auto.
  - intros [= <- <-]. exists [], r. repeat split; auto.
    by apply rooms_has_false.
Qed.


Lemma generateRoomCode_None (rooms : gmap string Room) tape :
  generateRoomCode rooms tape = None <->
  Forall (fun r => rooms_has rooms (draw_code r) = true) tape.
Proof.
  induction tape as [|r tape IH]; simpl; [by split; [constructor|]|].
  destruct (rooms_has rooms (draw_code r)) eqn:Hhas.
  - rewrite IH. split; [by constructor | by inversion 1].
  - split; [discriminate|]. inversion 1; congruence.
Qed.

Lemma generateRoomCode_returns (rooms : gmap string Room) tape :
  Exists (fun r => rooms_has rooms (draw_code r) = false) tape ->
  exists code tape', generateRoomCode rooms tape = Some (code, tape').
Proof.
  intros Hex.
  destruct (generateRoomCode rooms tape) as [[code tape']|] eqn:Hgen; [eauto|].
  apply generateRoomCode_None in Hgen.
  apply Exists_exists in Hex as (r & Hr & Hfree).
  rewrite Forall_forall in Hgen. apply Hgen in Hr. congruence.
Qed.








(** ** How the handlers change the table *)

Lemma rooms_get_Some (rooms : gmap string Room) v code room :
  rooms_get rooms v = Some (code, room) -> v = JStr code /\ rooms !! code = Some room.
Proof.
  destruct v; simpl; try discriminate.
  destruct (rooms !! s) eqn:Hs; [|discriminate]. by intros [= <- <-].
Qed.

Lemma rooms_get_str (rooms : gmap string Room) code room :
  rooms !! code = Some room -> rooms_get rooms (JStr code) = Some (code, room).
Proof. simpl. by intros ->. Qed.

(** Taking a handler apart: the property reads, the lookup of the room,
    the tests. *)
Ltac handler_cases H :=
  repeat match type of H with
    | context [prop ?d ?k] =>
        unfold prop in H at 1; destruct (get d k) eqn:?; simpl in H
    | context [rooms_get ?m ?v] =>
        let Hget := fresh "Hget" in
        destruct (rooms_get m v) as [[? ?]|] eqn:Hget; simpl in H;
        [apply rooms_get_Some in Hget as [? ?]|]
    | context [if ?b then _ else _] => destruct b eqn:?; simpl in H
    | context [match deviceType ?s with _ => _ end] =>
        destruct (deviceType s) as [[]|] eqn:?; simpl in H
    end.

Lemma handle_frame clock socket msg (rooms : gmap string Room) tape r tape' :
  is_create msg = false ->
  handle clock socket msg rooms tape = Done (r, tape') ->
  tape' = tape /\ sock_id (socket_of r) = sock_id socket /\
  one_room_changed (room_change msg socket) rooms (rooms_of r).
Proof.
  intros Hmsg H. unfold one_room_changed, room_change.
  destruct msg; try discriminate Hmsg; simpl in H;
    unfold join_room, tablet_movement, touch_movement, toggle_flashlight,
      add_danger_zone, add_arrow, add_incident, add_restricted_zone,
      push_annotation, clear_annotations, remove_annotation, camera_position,
      request_placement, placement_position, disconnect, reconnect_room in H;
    handler_cases H; try discriminate H;
    cbv [mret Outcome_ret] in H; injection H as <- <-;
    (split; [reflexivity|]); (split; [reflexivity|]); simpl;
    first [ by left
          | right; do 3 eexists; split; [eassumption|];
            split; [reflexivity|]; simpl; split; [reflexivity|];
            split; [intros Hadd Hnil; try discriminate Hadd; by rewrite ?Hnil|];
            intros []; simpl; auto ].
Qed.



Lemma create_room_Done clock socket callback (rooms : gmap string Room) tape r tape' :
  create_room clock socket callback rooms tape = Done (r, tape') ->
  exists code busy r0,
    tape = busy ++ r0 :: tape' /\ code = draw_code r0 /\ rooms !! code = None /\
    rooms_of r
      = <[code := mkRoom (Some (sock_id socket)) None [] (iso_now clock)]> rooms /\
    socket_of r = bound socket code Display /\
    actions_of r = Join (sock_id socket) code :: ack callback (ack_created code).
Proof.
  unfold create_room.
  destruct (generateRoomCode rooms tape) as [[code rest]|] eqn:Hgen; [|discriminate].
  intros [= <- <-].
  apply generateRoomCode_Some in Hgen as (busy & r0 & -> & -> & Hfree & _).
  by exists (draw_code r0), busy, r0.
Qed.





Lemma is_room_code_nonempty code : is_room_code code = true -> code <> "".
Proof. by intros H ->. Qed.

(** The ids stay ids along a run: with draws in [0, 1) and connections
    that have an id, every key of the table and every socket id held by a
    slot is a non-empty string. *)
Lemma step_named ev s s' acts :
  Forall valid_draw (tape s) -> rooms_named (rooms s) -> sockets_named (sockets s) ->
  connection_named ev ->
  step ev s = Done (s', acts) ->
  Forall valid_draw (tape s') /\ rooms_named (rooms s') /\ sockets_named (sockets s').
Proof.
  intros Htape Hrooms Hsockets Hev.
  destruct ev as [id|clock id msg]; simpl.
  - intros [= <- <-]. simpl. split; [done|]. split; [done|].
    intros id' socket' [[<- <-]|[_ Hold]]%lookup_insert_Some; [done|].
    by apply Hsockets.
  - destruct (sockets s !! id) as [socket|] eqn:Hsock; [|by intros [= <- <-]].
    destruct (Hsockets id socket Hsock) as [Hsid Hid].
    destruct (handle clock socket msg (rooms s) (tape s)) as [[r tape']| |] eqn:Hh;
      simpl; try discriminate.
    cbv [mret Outcome_ret]. intros [= <- <-]. simpl.
    assert (Hfacts : Forall valid_draw tape' /\ rooms_named (rooms_of r) /\
                     sock_id (socket_of r) = id).
    { destruct (is_create msg) eqn:Hmsg.
      - destruct msg; try discriminate Hmsg. simpl in Hh.
        apply create_room_Done in Hh
          as (code & busy & r0 & Hsplit & Hcode & Hfree & -> & -> & _).
        rewrite Hsplit in Htape.
        apply Forall_app in Htape as [_ [Hr0 Hrest]%Forall_cons].
        split; [done|]. split; [|done].
        intros code' room' [[<- <-]|[_ Hold]]%lookup_insert_Some; [|by apply Hrooms].
        split.
        + rewrite Hcode. by apply is_room_code_nonempty, draw_code_is_room_code.
        + intros [] id'; simpl; [|discriminate]. intros [= <-]. congruence.
      - apply handle_frame in Hh as (-> & Hsame & Hone); [|done].
        split; [done|]. split; [|congruence].
        destruct Hone as [->|(c & old & new & Hold & -> & _ & _ & Hslots)]; [done|].
        intros code' room' [[<- <-]|[_ Hother]]%lookup_insert_Some;
          [|by apply Hrooms].
        destruct (Hrooms c old Hold) as [Hc Hids].
        split; [done|]. intros d id' Hd.
        destruct (Hslots d) as [Heq|[Heq|Heq]]; rewrite Heq in Hd.
        + by eapply Hids.
        + discriminate Hd.
        + injection Hd as <-. congruence. }
    destruct Hfacts as (Htape' & Hrooms' & Hsid').
    split; [done|]. split; [done|].
    intros id' socket' Hlook.
    destruct msg;
      try (apply lookup_insert_Some in Hlook as [[<- <-]|[_ Hold]];
           [done | by apply Hsockets]).
    apply lookup_delete_Some in Hlook as [_ Hold]. by apply Hsockets.
Qed.

Lemma run_named evs : forall s s' log,
  Forall valid_draw (tape s) -> rooms_named (rooms s) -> sockets_named (sockets s) ->
  Forall connection_named evs ->
  run evs s = Done (s', log) ->
  rooms_named (rooms s') /\ sockets_named (sockets s').
Proof.
  induction evs as [|ev evs IH]; intros s s' log Htape Hrooms Hsockets Hevs; simpl.
  - by intros [= <- <-].
  - destruct (step ev s) as [[s1 acts]| |] eqn:Hstep; simpl; try discriminate.
    destruct (run evs s1) as [[s2 log']| |] eqn:Hrun; simpl; try discriminate.
    cbv [mret Outcome_ret]. intros [= <- <-].
    apply Forall_cons in Hevs as [Hev Hevs].
    destruct (step_named ev s s1 acts Htape Hrooms Hsockets Hev Hstep)
      as (Htape1 & Hrooms1 & Hsockets1).
    by eapply IH.
Qed.

Lemma initial_named tape0 :
  rooms_named (rooms (initial tape0)) /\ sockets_named (sockets (initial tape0)).
Proof. split; intros ? ? Hlook; simpl in Hlook; by rewrite lookup_empty in Hlook. Qed.



(** ** Joining and reconnecting *)





Lemma is_str_true s v : is_str s v = true <-> v = JStr s.
Proof.
  unfold is_str. destruct v; simpl; try (split; [discriminate|congruence]).
  rewrite negb_involutive, String.eqb_eq. split; congruence.
Qed.

Lemma is_str_false s v : v <> JStr s -> is_str s v = false.
Proof.
  intros Hne. destruct (is_str s v) eqn:H; [|reflexivity].
  by apply is_str_true in H.
Qed.

Lemma truthy_str_Some id : id <> "" -> truthy_str (Some id) = true.
Proof.
  intros Hne. simpl. apply negb_true_iff, String.eqb_neq, Hne.
Qed.

(** [reconnect-room] into the empty slot of the role it names. *)
Lemma reconnect_room_empty_slot socket fields callback
    (rooms : gmap string Room) (d : DeviceType) code room :
  assoc "deviceType" fields = JStr (device_name d) ->
  assoc "roomId" fields = JStr code -> rooms !! code = Some room ->
  slot d room = None ->
  exists r notes a,
    reconnect_room socket (JObj fields) callback rooms = Done r /\
    rooms_of r = <[code := set_slot d (Some (sock_id socket)) room]> rooms /\
    socket_of r = bound socket code d /\
    actions_of r = Join (sock_id socket) code :: notes ++ ack callback a /\
    Forall (fun x => exists t, x = Emit t "controller-connected" NoPayload) notes /\
    success a = true /\ ack_annotations a = Some (annotations room) /\
    ack_error a = None.
Proof.
  intros Hrole Hid Hroom Hslot.
  unfold reconnect_room, prop. simpl. rewrite Hid, (rooms_get_str _ _ _ Hroom).
  simpl. rewrite Hrole.
  destruct d; simpl in Hslot |- *; rewrite Hslot; simpl.
  - exists (mkReply (<[code := set_displaySocket (Some (sock_id socket)) room]> rooms)
              (bound socket code Display)
              (Join (sock_id socket) code
               :: ack callback (ack_display (annotations room)
                                  (not_null (controllerSocket room))))),
      [], (ack_display (annotations room) (not_null (controllerSocket room))).
    repeat split; constructor.
  - destruct (truthy_str (displaySocket room)) eqn:Hdisp.
    + eexists _, [Emit (displaySocket room) "controller-connected" NoPayload],
        (ack_annotations_only (annotations room)).
      repeat split. repeat constructor. by eexists.
    + eexists _, [], (ack_annotations_only (annotations room)).
      repeat split. constructor.
Qed.



(** C10.  [reconnect-room] on a room of the table with a device type that
    is neither ["display"] nor ["controller"] (absent, or any other value)
    acknowledges the failure [Device type already connected] and changes
    nothing, whatever the slots of the room hold, both empty included. *)
Theorem reconnect_room_unknown_device socket fields callback
    (rooms : gmap string Room) code room :
  assoc "roomId" fields = JStr code -> rooms !! code = Some room ->
  assoc "deviceType" fields <> JStr "display" ->
  assoc "deviceType" fields <> JStr "controller" ->
  reconnect_room socket (JObj fields) callback rooms
  = Done (mkReply rooms socket
            (ack callback (ack_failure "Device type already connected"))).
Proof.
  intros Hid Hroom Hd Hc.
  unfold reconnect_room, prop. simpl. rewrite Hid, (rooms_get_str _ _ _ Hroom).
  simpl. by rewrite (is_str_false _ _ Hd), (is_str_false _ _ Hc).
Qed.

Lemma reconnect_room_unknown_device_witness :
  let rooms : gmap string Room := {[ "4821" := mkRoom None None [] "t" ]} in
  reconnect_room (mkSocket "s" None None)
    (JObj [("roomId", JStr "4821"); ("deviceType", JStr "tablet")]) true rooms
  = Done (mkReply rooms (mkSocket "s" None None)
            [Callback (ack_failure "Device type already connected")]).
Proof.
  intros rooms.
  apply (reconnect_room_unknown_device (mkSocket "s" None None)
           [("roomId", JStr "4821"); ("deviceType", JStr "tablet")] true rooms
           "4821" (mkRoom None None [] "t")).
  - reflexivity.
  - vm_compute. reflexivity.
  - vm_compute. discriminate.
  - vm_compute. discriminate.
Defined.

(** ** Annotations *)

Lemma saveRoomState_insert (rooms : gmap string Room) code room :
  saveRoomState (<[code := room]> rooms) (JStr code) = [Save code room].
Proof. unfold saveRoomState. simpl. by rewrite lookup_insert_eq. Qed.




Lemma without_id_Removed v l : Removed v l (without_id v l).
Proof.
  induction l as [|a l IH]; simpl; [constructor|].
  destruct (str_strict_ne (ann_id a) v) eqn:Hne.
  - apply Removed_keep; [|exact IH].
    intros <-. simpl in Hne. by rewrite String.eqb_refl in Hne.
  - apply Removed_drop; [|exact IH].
    destruct v; try discriminate Hne. simpl in Hne.
    apply negb_false_iff, String.eqb_eq in Hne. by subst.
Qed.


Lemma Removed_elem_of v l l' :
  Removed v l l' -> forall a, a ∈ l' <-> a ∈ l /\ JStr (ann_id a) <> v.
Proof.
  induction 1 as [|a l l' Heq _ IH|a l l' Hne _ IH]; intros b.
  - split; [by intros ?%elem_of_nil | by intros [?%elem_of_nil _]].
  - rewrite IH, elem_of_cons. split; [tauto|].
    intros [[->|Hin] Hb]; [done|tauto].
  - rewrite !elem_of_cons, IH. split; [|tauto].
    intros [->|[Hin Hb]]; [tauto|tauto].
Qed.

Lemma Removed_sublist v l l' : Removed v l l' -> l' `sublist_of` l.
Proof.
  induction 1; [constructor | by apply sublist_cons | by apply sublist_skip].
Qed.




(** ** Disconnecting *)

(** C8.  The [disconnect] of a socket recorded as the device [d] of a room
    of the table returns; the slot of [d] in that room is cleared; the room
    stays in the table with the slot of the peer, the annotations and
    [createdAt] as they were; every other room is as it was; and the
    notification of the disconnection ([display-disconnected] when the
    display leaves, [controller-disconnected] when the controller leaves)
    is emitted to the peer when the peer slot holds a socket id, and to
    nobody when it is empty. *)
Theorem disconnect_clears_own_slot socket (rooms : gmap string Room) code room d :
  roomId socket = Some code -> code <> "" ->
  deviceType socket = Some d -> rooms !! code = Some room ->
  exists r,
    disconnect socket rooms = Done r /\
    rooms_of r = <[code := set_slot d None room]> rooms /\
    (exists room', rooms_of r !! code = Some room' /\
       slot d room' = None /\
       slot (peer d) room' = slot (peer d) room /\
       annotations room' = annotations room /\
       createdAt room' = createdAt room) /\
    (forall other, other <> code -> rooms_of r !! other = rooms !! other) /\
    (forall p, slot (peer d) room = Some p -> p <> "" ->
       actions_of r = [Emit (Some p) (disconnected_event d) NoPayload]) /\
    (slot (peer d) room = None -> actions_of r = []).
Proof.
  intros Hid Hcode Hdev Hroom.
  unfold disconnect, roomId_value. rewrite Hid, Hdev.
  simpl. rewrite Hroom.
  replace (negb (String.eqb code "")) with true
    by (symmetry; apply negb_true_iff, String.eqb_neq, Hcode).
  destruct d; simpl; eexists; (split; [reflexivity|]); simpl;
    (split; [reflexivity|]);
    (split; [eexists; split; [apply lookup_insert_eq|by destruct room]|]);
    (split; [intros other Hother; by apply lookup_insert_ne|]);
    (split; [intros p -> Hp; by rewrite (truthy_str_Some _ Hp) | by intros ->]).
Qed.

Lemma disconnect_clears_own_slot_witness :
  let a := mkAnnotation "danger_1" (Danger JNull (JNum 5) (JStr "Danger Zone")) "t1" in
  let room := mkRoom (Some "display-1") (Some "controller-1") [a] "t" in
  let rooms : gmap string Room := {[ "4821" := room ]} in
  exists r,
    disconnect (mkSocket "display-1" (Some "4821") (Some Display)) rooms = Done r /\
    rooms_of r = <[ "4821" := mkRoom None (Some "controller-1") [a] "t" ]> rooms /\
    actions_of r = [Emit (Some "controller-1") "display-disconnected" NoPayload].
Proof.
  intros a room rooms.
  destruct (disconnect_clears_own_slot (mkSocket "display-1" (Some "4821") (Some Display))
              rooms "4821" room Display)
    as (r & Hr & Hrooms & _ & _ & Hpeer & _).
  - reflexivity.
  - discriminate.
  - reflexivity.
  - vm_compute. reflexivity.
  - exists r. split; [exact Hr|]. split; [exact Hrooms|].
    apply (Hpeer "controller-1"); [reflexivity | discriminate].
Defined.

(** ** Clearing *)

Lemma step_keeps_cleared code ev s s' acts :
  adds_annotation ev = false ->
  step ev s = Done (s', acts) ->
  cleared code (rooms s) -> cleared code (rooms s').
Proof.
  intros Hadd Hstep (room & Hroom & Hnil).
  destruct ev as [id|clock id msg]; simpl in Hstep.
  - injection Hstep as <- <-. by exists room.
  - destruct (sockets s !! id) as [socket|] eqn:Hsock.
    2:{ injection Hstep as <- <-. by exists room. }
    destruct (handle clock socket msg (rooms s) (tape s)) as [[r tape']| |] eqn:Hh;
      simpl in Hstep; try discriminate.
    cbv [mret Outcome_ret] in Hstep. injection Hstep as <- <-. simpl.
    destruct (is_create msg) eqn:Hmsg.
    + destruct msg; try discriminate Hmsg. simpl in Hh.
      apply create_room_Done in Hh as (code' & _ & _ & _ & _ & Hfree & -> & _).
      exists room. split; [|done].
      rewrite lookup_insert_ne; [done|]. intros ->. congruence.
    + apply handle_frame in Hh
        as (_ & _ & [->|(c & old & new & Hold & -> & _ & Hkeep & _)]);
        [by exists room| |done].
      destruct (decide (c = code)) as [->|Hne].
      * exists new. rewrite lookup_insert_eq. split; [done|].
        apply Hkeep; [done|]. congruence.
      * exists room. by rewrite lookup_insert_ne.
Qed.

Lemma run_keeps_cleared code evs : forall s s' log,
  Forall (fun ev => adds_annotation ev = false) evs ->
  run evs s = Done (s', log) ->
  cleared code (rooms s) -> cleared code (rooms s').
Proof.
  induction evs as [|ev evs IH]; intros s s' log Hevs; simpl.
  - by intros [= <- <-].
  - destruct (step ev s) as [[s1 acts]| |] eqn:Hstep; simpl; try discriminate.
    destruct (run evs s1) as [[s2 log']| |] eqn:Hrun; simpl; try discriminate.
    cbv [mret Outcome_ret]. intros [= <- <-] Hc.
    apply Forall_cons in Hevs as [Hev Hevs].
    eapply IH; [exact Hevs | exact Hrun |].
    by eapply step_keeps_cleared.
Qed.

(** [reconnect-room] with an object naming a room of the table returns,
    and what it acknowledges is the failure of an occupied slot or a success
    with the annotations of the room. *)
Lemma reconnect_room_in_room socket fields callback (rooms : gmap string Room) code room :
  assoc "roomId" fields = JStr code -> rooms !! code = Some room ->
  exists r,
    reconnect_room socket (JObj fields) callback rooms = Done r /\
    forall a, Callback a ∈ actions_of r ->
      a = ack_failure "Device type already connected" \/
      (success a = true /\ ack_annotations a = Some (annotations room)).
Proof.
  intros Hid Hroom.
  unfold reconnect_room, prop. simpl. rewrite Hid, (rooms_get_str _ _ _ Hroom). simpl.
  repeat match goal with
         | |- context [if ?b then _ else _] => destruct b; simpl
         end;
    (eexists; split; [reflexivity|]); simpl; intros a Hin;
    destruct callback; simpl in Hin;
    repeat match goal with
      | H : _ ∈ [] |- _ => by apply elem_of_nil in H
      | H : _ ∈ _ :: _ |- _ => apply elem_of_cons in H as [H|H]; [try discriminate H|]
      end;
    injection Hin as ->; auto.
Qed.

(** C7, as the code has it.  [clear-annotations] on a room of the table,
    sent by a connected socket, returns and leaves the room with an empty
    annotation sequence.  After any further events among which none adds an
    annotation, the sequence is still empty; a [join-room] on the code then
    acknowledges [{success: true, annotations: []}]; a [reconnect-room] on
    the code that names a role whose slot is empty acknowledges a success
    whose annotation list is empty; and whatever a [reconnect-room] on the
    code acknowledges is either that or the failure
    [Device type already connected], which carries no list. *)
Theorem clear_annotations_then_empty s clock id socket fields code room :
  sockets s !! id = Some socket ->
  assoc "roomId" fields = JStr code -> rooms s !! code = Some room ->
  exists s1 acts,
    step (Received clock id (ClearAnnotations (JObj fields))) s = Done (s1, acts) /\
    rooms s1 = <[code := set_annotations [] room]> (rooms s) /\
    forall evs s2 log,
      Forall (fun ev => adds_annotation ev = false) evs ->
      run evs s1 = Done (s2, log) ->
      exists room2,
        rooms s2 !! code = Some room2 /\ annotations room2 = [] /\
        (forall socket' callback,
           exists r notes,
             join_room socket' (JStr code) callback (rooms s2) = Done r /\
             actions_of r = notes ++ ack callback (ack_annotations_only []) /\
             (forall a, Callback a ∉ notes)) /\
        (forall socket' fields' callback d,
           assoc "roomId" fields' = JStr code ->
           assoc "deviceType" fields' = JStr (device_name d) ->
           slot d room2 = None ->
           exists r notes a,
             reconnect_room socket' (JObj fields') callback (rooms s2) = Done r /\
             actions_of r = Join (sock_id socket') code :: notes ++ ack callback a /\
             Forall (fun x => exists t, x = Emit t "controller-connected" NoPayload)
               notes /\
             success a = true /\ ack_annotations a = Some []) /\
        (forall socket' fields' callback,
           assoc "roomId" fields' = JStr code ->
           exists r,
             reconnect_room socket' (JObj fields') callback (rooms s2) = Done r /\
             forall a, Callback a ∈ actions_of r ->
               a = ack_failure "Device type already connected" \/
               (success a = true /\ ack_annotations a = Some [])).
Proof.
  intros Hsock Hid Hroom.
  eexists _, _. split.
  { simpl. rewrite Hsock. unfold clear_annotations, prop. simpl.
    rewrite Hid, (rooms_get_str _ _ _ Hroom). simpl. reflexivity. }
  simpl. split; [reflexivity|].
  intros evs s2 log Hevs Hrun.
  assert (Hc : cleared code (rooms s2)).
  { eapply run_keeps_cleared; [exact Hevs | exact Hrun |].
    simpl. eexists. by rewrite lookup_insert_eq. }
  destruct Hc as (room2 & Hroom2 & Hnil).
  exists room2. split; [exact Hroom2|]. split; [exact Hnil|]. split; [|split].
  - intros socket' callback. unfold join_room.
    rewrite (rooms_get_str _ _ _ Hroom2). simpl. rewrite Hnil.
    eexists _, [_; _]. split; [reflexivity|]. split; [reflexivity|].
    intros a Hin.
    repeat (apply elem_of_cons in Hin as [Hin|Hin]; [discriminate Hin|]).
    by apply elem_of_nil in Hin.
  - intros socket' fields' callback d Hid' Hrole Hslot.
    destruct (reconnect_room_empty_slot socket' fields' callback (rooms s2) d code room2
                Hrole Hid' Hroom2 Hslot)
      as (r & notes & a & Hr & _ & _ & Hacts & Hnotes & Hok & Hanns & _).
    exists r, notes, a. rewrite Hnil in Hanns. by repeat split.
  - intros socket' fields' callback Hid'.
    destruct (reconnect_room_in_room socket' fields' callback (rooms s2) code room2
                Hid' Hroom2) as (r & Hr & Hacks).
    exists r. split; [exact Hr|]. intros a Hin.
    rewrite <- Hnil. by apply Hacks.
Qed.

Lemma clear_annotations_then_empty_witness :
  let a := mkAnnotation "danger_1" (Danger JNull (JNum 5) (JStr "Danger Zone")) "t1" in
  let room := mkRoom (Some "display-1") (Some "controller-1") [a] "t" in
  let controller := mkSocket "controller-1" (Some "4821") (Some Controller) in
  let s := mkServer {[ "4821" := room ]} [] {[ "controller-1" := controller ]} in
  let clock := mkClock 1700000000000 "2023-11-14T22:13:20.000Z" in
  let evs := [Received clock "controller-1" Disconnect; Connection "controller-2"] in
  exists s1 acts s2 log r notes,
    step (Received clock "controller-1"
            (ClearAnnotations (JObj [("roomId", JStr "4821")]))) s = Done (s1, acts) /\
    run evs s1 = Done (s2, log) /\
    join_room (mkSocket "controller-2" None None) (JStr "4821") true (rooms s2) = Done r /\
    actions_of r = notes ++ [Callback (ack_annotations_only [])].
Proof.
  intros a room controller s clock evs.
  destruct (clear_annotations_then_empty s clock "controller-1" controller
              [("roomId", JStr "4821")] "4821" room)
    as (s1 & acts & Hstep & Hrooms & Hafter).
  - vm_compute. reflexivity.
  - reflexivity.
  - vm_compute. reflexivity.
  - destruct (run evs s1) as [[s2 log]| |] eqn:Hrun.
    + destruct (Hafter evs s2 log) as (room2 & _ & _ & Hjoin & _).
      * repeat constructor.
      * exact Hrun.
      * destruct (Hjoin (mkSocket "controller-2" None None) true)
          as (r & notes & Hr & Hacts & _).
        exists s1, acts, s2, log, r, notes. repeat split; assumption.
    + exfalso. vm_compute in Hstep. injection Hstep as <- _.
      vm_compute in Hrun. discriminate Hrun.
    + exfalso. vm_compute in Hstep. injection Hstep as <- _.
      vm_compute in Hrun. discriminate Hrun.
Defined.

(** C7 as stated fails: right after [clear-annotations], while the
    controller that sent it is still bound, a [reconnect-room] as controller
    on the code acknowledges a failure, which carries no annotation list. *)
Lemma reconnect_after_clear_into_occupied_slot :
  let a := mkAnnotation "danger_1" (Danger JNull (JNum 5) (JStr "Danger Zone")) "t1" in
  let room := mkRoom (Some "display-1") (Some "controller-1") [a] "t" in
  let controller := mkSocket "controller-1" (Some "4821") (Some Controller) in
  let s := mkServer {[ "4821" := room ]} [] {[ "controller-1" := controller ]} in
  let clock := mkClock 1700000000000 "2023-11-14T22:13:20.000Z" in
  let again := [("roomId", JStr "4821"); ("deviceType", JStr "controller")] in
  exists s1 acts r ack,
    step (Received clock "controller-1"
            (ClearAnnotations (JObj [("roomId", JStr "4821")]))) s = Done (s1, acts) /\
    reconnect_room (mkSocket "controller-2" None None) (JObj again) true (rooms s1)
    = Done r /\
    actions_of r = [Callback ack] /\
    success ack = false /\
    ack_annotations ack = None /\
    ack_annotations ack <> Some [].
Proof.
  intros a room controller s clock again.
  eexists _, _, _, _.
  split; [vm_compute; reflexivity|].
  split; [vm_compute; reflexivity|].
  split; [reflexivity|].
  repeat split. discriminate.
Qed.

(** ** A session from start to end *)

(** The scenario of the specification: a display creates a room and is
    issued the code 4821, a controller joins it and receives no annotation,
    then adds an arrow labelled [Exit]; the room receives
    [annotation-added] with an id that starts with [arrow_], the positions
    as given and the label [Exit]. *)
Example session_4821 :
  let clock := mkClock 1700000000000 "2023-11-14T22:13:20.000Z" in
  let origin := JObj [("x", JNum 0); ("y", JNum 0); ("z", JNum 0)] in
  let ahead := JObj [("x", JNum 0); ("y", JNum 0); ("z", JNum (-10))] in
  let arrow := JObj [("roomId", JStr "4821"); ("start", origin); ("end", ahead);
                     ("label", JStr "Exit")] in
  let evs := [Connection "display-1"; Received clock "display-1" (CreateRoom true);
              Connection "controller-1";
              Received clock "controller-1" (JoinRoom (JStr "4821") true);
              Received clock "controller-1" (AddArrow arrow)] in
  let a := mkAnnotation "arrow_1700000000000" (Arrow origin ahead (JStr "Exit"))
             "2023-11-14T22:13:20.000Z" in
  exists s log,
    run evs (initial [draw_for 4821]) = Done (s, log) /\
    List.map snd log =
      [ [];
        [Join "display-1" "4821"; Callback (ack_created "4821")];
        [];
        [Join "controller-1" "4821";
         Emit (Some "display-1") "controller-connected" NoPayload;
         Callback (ack_annotations_only [])];
        [Save "4821" (mkRoom (Some "display-1") (Some "controller-1") [a]
                        "2023-11-14T22:13:20.000Z");
         Emit (Some "4821") "annotation-added" (OfAnnotation a)] ] /\
    rooms s !! "4821"
    = Some (mkRoom (Some "display-1") (Some "controller-1") [a]
              "2023-11-14T22:13:20.000Z").
Proof.
  intros clock origin ahead arrow evs a.
  eexists _, _. split; [vm_compute; reflexivity|].
  split; vm_compute; reflexivity.
Qed.


(** * Further properties of the relay *)

(** ** Errors *)

(** Taking the handler of a message apart, in a hypothesis that says how it
    ended. *)
Ltac handle_cases H :=
  simpl in H;
  unfold join_room, tablet_movement, touch_movement, toggle_flashlight,
    add_danger_zone, add_arrow, add_incident, add_restricted_zone,
    push_annotation, clear_annotations, remove_annotation, camera_position,
    request_placement, placement_position, disconnect, reconnect_room in H;
  handler_cases H; try discriminate H.


(** ** Creating a room *)

(** X2.  When a draw of the tape gives a free code, [create-room] returns:
    it adds one room under a code that was free, with the socket as
    display, no controller, no annotation and the clock as [createdAt];
    every room that was in the table is still there, unchanged; the socket
    is joined to the room and recorded as its display, and the
    acknowledgement carries the code. *)
Theorem create_room_adds_a_room clock socket callback
    (rooms : gmap string Room) tape :
  Exists (fun r => rooms_has rooms (draw_code r) = false) tape ->
  exists r tape' code,
    create_room clock socket callback rooms tape = Done (r, tape') /\
    rooms !! code = None /\
    rooms_of r !! code
    = Some (mkRoom (Some (sock_id socket)) None [] (iso_now clock)) /\
    (forall other room, rooms !! other = Some room -> rooms_of r !! other = Some room) /\
    size (rooms_of r) = S (size rooms) /\
    socket_of r = bound socket code Display /\
    actions_of r = Join (sock_id socket) code :: ack callback (ack_created code).
Proof.
  intros Hfree.
  destruct (generateRoomCode_returns rooms tape Hfree) as (code & tape' & Hgen).
  unfold create_room. rewrite Hgen.
  apply generateRoomCode_Some in Hgen as (_ & _ & _ & _ & Hnone & _).
  eexists _, tape', code. split; [reflexivity|]. simpl.
  split; [exact Hnone|]. split; [apply lookup_insert_eq|].
  split; [|split; [by apply map_size_insert_None | by split]].
  intros other room Hother. rewrite lookup_insert_ne; [done|]. congruence.
Qed.

Lemma create_room_adds_a_room_witness :
  let rooms : gmap string Room := {[ "1000" := mkRoom (Some "d") None [] "t" ]} in
  exists r tape' code,
    create_room (mkClock 1700000000000 "2023-11-14T22:13:20.000Z")
      (mkSocket "display-2" None None) true rooms [0 # 1; 1 # 2] = Done (r, tape') /\
    rooms !! code = None /\
    rooms_of r !! "1000" = Some (mkRoom (Some "d") None [] "t").
Proof.
  intros rooms.
  destruct (create_room_adds_a_room (mkClock 1700000000000 "2023-11-14T22:13:20.000Z")
              (mkSocket "display-2" None None) true rooms [0 # 1; 1 # 2])
    as (r & tape' & code & Hr & Hfree & _ & Hold & _).
  - apply Exists_cons_tl, Exists_cons_hd. vm_compute. reflexivity.
  - exists r, tape', code. split; [exact Hr|]. split; [exact Hfree|].
    apply Hold. vm_compute. reflexivity.
Defined.

(** ** Forwarding *)

Lemma relay_shape clock socket msg d (rooms : gmap string Room) tape r tape' :
  relay_target msg = Some d ->
  handle clock socket msg rooms tape = Done (r, tape') ->
  exists data v,
    msg_data msg = Some data /\ get data "roomId" = Some v /\
    rooms_of r = rooms /\ socket_of r = socket /\ tape' = tape /\
    match rooms_get rooms v with
    | Some (_, room) =>
        if truthy_str (slot d room)
        then exists event payload, actions_of r = [Emit (slot d room) event payload]
        else actions_of r = []
    | None => actions_of r = []
    end.
Proof.
  intros Hrelay H.
  destruct msg; try discriminate Hrelay; injection Hrelay as <-; simpl in H;
    unfold tablet_movement, touch_movement, toggle_flashlight, camera_position,
      request_placement, placement_position, prop in H;
    match type of H with
    | context [get ?data "roomId"] =>
        destruct (get data "roomId") as [v|] eqn:Hv; [|discriminate H];
        simpl in H; exists data, v; (split; [reflexivity|]); (split; [exact Hv|]);
        (destruct (rooms_get rooms v) as [[code room]|]; simpl in H |- *;
         [ match type of H with
           | context [truthy_str ?x] => destruct (truthy_str x) eqn:Hslot; simpl in H
           end
         | ]);
        repeat match type of H with
          | context [get data ?k] => destruct (get data k); simpl in H; [|discriminate H]
          end
    end;
    cbv [mret Outcome_ret] in H; injection H as <- <-; simpl;
    repeat split; by eexists _, _.
Qed.

(** X3.  The six forwarding handlers ([tablet-movement], [touch-movement],
    [toggle-flashlight], [request-placement] towards the display;
    [camera-position], [placement-position] towards the controller) never
    change the table or the socket.  They emit one event, to the socket
    bound to that role in the room the message names, and nothing at all
    when there is no such room or no socket bound; the sender need not
    belong to the room. *)
Theorem relay_only_forwards clock socket msg d (rooms : gmap string Room) tape r tape' :
  relay_target msg = Some d ->
  handle clock socket msg rooms tape = Done (r, tape') ->
  rooms_of r = rooms /\ socket_of r = socket /\ tape' = tape /\
  (forall target, bound_target rooms msg d target ->
     exists event payload, actions_of r = [Emit (Some target) event payload]) /\
  ((forall target, ~ bound_target rooms msg d target) -> actions_of r = []).
Proof.
  intros Hrelay H.
  destruct (relay_shape _ _ _ _ _ _ _ _ Hrelay H)
    as (data & v & Hdata & Hv & Hrooms & Hsocket & Htape & Hacts).
  split; [exact Hrooms|]. split; [exact Hsocket|]. split; [exact Htape|]. split.
  - intros target (data' & code & room & Hdata' & Hget & Hroom & Hslot & Hne).
    assert (data' = data) as -> by congruence.
    assert (v = JStr code) as -> by congruence.
    rewrite (rooms_get_str _ _ _ Hroom), Hslot, (truthy_str_Some _ Hne) in Hacts.
    exact Hacts.
  - intros Hnone.
    destruct (rooms_get rooms v) as [[code room]|] eqn:Hget; [|exact Hacts].
    destruct (truthy_str (slot d room)) eqn:Hslot; [|exact Hacts].
    exfalso. apply rooms_get_Some in Hget as [-> Hroom].
    destruct (slot d room) as [target|] eqn:Htarget; [|discriminate Hslot].
    apply (Hnone target). exists data, code, room. repeat split; try done.
    intros ->. discriminate Hslot.
Qed.

Lemma relay_only_forwards_witness :
  let rooms : gmap string Room :=
    {[ "4821" := mkRoom (Some "display-1") None [] "t" ]} in
  let data := JObj [("roomId", JStr "4821"); ("speed", JNum (1 # 2))] in
  exists event payload,
    handle (mkClock 0 "t") (mkSocket "stranger" None None) (TabletMovement data)
      rooms []
    = Done (mkReply rooms (mkSocket "stranger" None None)
              [Emit (Some "display-1") event payload], []).
Proof.
  intros rooms data.
  destruct (relay_only_forwards (mkClock 0 "t") (mkSocket "stranger" None None)
              (TabletMovement data) Display rooms []
              (mkReply rooms (mkSocket "stranger" None None)
                 [Emit (Some "display-1") "movement-update"
                    (OfMovement JUndefined (JNum (1 # 2)))]) [])
    as (_ & _ & _ & Hemit & _).
  - reflexivity.
  - reflexivity.
  - destruct (Hemit "display-1") as (event & payload & Hacts).
    + exists data, "4821", (mkRoom (Some "display-1") None [] "t").
      repeat split; first [reflexivity | vm_compute; reflexivity | discriminate].
    + simpl in Hacts. injection Hacts as <- <-.
      by exists "movement-update", (OfMovement JUndefined (JNum (1 # 2))).
Defined.


(** ** Adding annotations *)








(** ** Annotation ids *)

Lemma int_to_string_injective n m : int_to_string n = int_to_string m -> n = m.
Proof.
  unfold int_to_string. intros Heq.
  assert (Hnonnil : forall z, Z.to_int z <> Decimal.Pos Decimal.Nil /\
                              Z.to_int z <> Decimal.Neg Decimal.Nil).
  { intros [|p|p]; simpl; split; try discriminate;
      intros [= H]; by apply DecimalPos.Unsigned.to_uint_nonnil in H. }
  destruct (Hnonnil n) as [Hn1 Hn2], (Hnonnil m) as [Hm1 Hm2].
  pose proof (NilZero.isi _ Hn1 Hn2) as Hn.
  pose proof (NilZero.isi _ Hm1 Hm2) as Hm.
  rewrite Heq, Hm in Hn. injection Hn as Hn.
  rewrite <- (DecimalZ.of_to n), <- (DecimalZ.of_to m). by rewrite Hn.
Qed.

Lemma stamped_tags t tag :
  tag ∈ id_tags -> stamped t (String.append tag (int_to_string t)).
Proof. intros Htag. by exists tag. Qed.

(** An id tells the time it was made at. *)
Lemma stamped_inj t1 t2 id : stamped t1 id -> stamped t2 id -> t1 = t2.
Proof.
  intros (tag1 & Htag1 & ->) (tag2 & Htag2 & Heq).
  unfold id_tags in Htag1, Htag2.
  repeat (apply elem_of_cons in Htag1 as [->|Htag1]);
    try (by apply elem_of_nil in Htag1);
    repeat (apply elem_of_cons in Htag2 as [->|Htag2]);
    try (by apply elem_of_nil in Htag2);
    simpl in Heq; try discriminate Heq;
    injection Heq as Heq; by apply int_to_string_injective.
Qed.

(** ** What an event does to the annotations of a room *)

Lemma handle_annotations clock socket msg (rooms : gmap string Room) tape r tape' code :
  is_create msg = false ->
  handle clock socket msg rooms tape = Done (r, tape') ->
  AnnChange [date_now clock] (annotations_of rooms code)
    (delivered code (actions_of r)) (annotations_of (rooms_of r) code).
Proof.
  intros Hmsg H.
  destruct msg; try discriminate Hmsg; handle_cases H;
    cbv [mret Outcome_ret] in H; injection H as <- <-; subst; simpl;
    rewrite ?saveRoomState_insert; simpl;
    unfold annotations_of; rewrite ?lookup_insert;
    repeat case_decide; subst; simpl;
    repeat match goal with
      | Hl : ?m !! ?k = Some _ |- context [?m !! ?k] => rewrite Hl
      end; simpl;
    rewrite ?String.eqb_refl;
    repeat match goal with
      | Hne : ?a <> ?b |- context [String.eqb ?a ?b] =>
          rewrite (proj2 (String.eqb_neq a b) Hne)
      end; simpl;
    try (destruct callback; simpl);
    first [ by apply Unchanged
          | apply Appended; eexists; split; [by left|];
            apply stamped_tags; unfold id_tags; set_solver
          | apply Dropped
          | apply Emptied
          | repeat case_match; simplify_eq; by apply Unchanged ].
Qed.

Lemma delivered_ack code callback a : delivered code (ack callback a) = [].
Proof. by destruct callback. Qed.

Lemma step_annotations ev s s' acts code :
  step ev s = Done (s', acts) ->
  AnnChange (time_of ev) (annotations_of (rooms s) code)
    (delivered code acts) (annotations_of (rooms s') code).
Proof.
  destruct ev as [id|clock id msg]; simpl.
  - intros [= <- <-]. by apply Unchanged.
  - destruct (sockets s !! id) as [socket|] eqn:Hsock;
      [|intros [= <- <-]; by apply Unchanged].
    destruct (handle clock socket msg (rooms s) (tape s)) as [[r tape']| |] eqn:Hh;
      simpl; try discriminate.
    cbv [mret Outcome_ret]. intros [= <- <-]. simpl.
    destruct (is_create msg) eqn:Hmsg; [|by eapply handle_annotations].
    destruct msg; try discriminate Hmsg. simpl in Hh.
    apply create_room_Done in Hh as (code' & _ & _ & _ & _ & Hfree & -> & _ & ->).
    simpl. rewrite delivered_ack.
    replace (annotations_of (<[code' := _]> (rooms s)) code)
      with (annotations_of (rooms s) code); [by apply Unchanged|].
    unfold annotations_of. rewrite lookup_insert.
    case_decide; [subst; by rewrite Hfree | done].
Qed.

Lemma replay_quiet on feed l :
  (forall event payload l0,
     is_annotation_event event = false -> on event payload l0 = l0) ->
  forallb (fun e => negb (is_annotation_event (fst e))) feed = true ->
  replay on feed l = l.
Proof.
  intros Hon. unfold replay.
  induction feed as [|[event payload] feed IH]; simpl; [done|].
  intros [Hev Hrest]%andb_prop.
  rewrite Hon; [by apply IH | by apply negb_true_iff].
Qed.

Lemma server_on_quiet event payload l :
  is_annotation_event event = false -> server_on event payload l = l.
Proof.
  unfold is_annotation_event, server_on.
  intros [[-> ->]%orb_false_elim ->]%orb_false_elim. reflexivity.
Qed.

Lemma display_on_quiet event payload l :
  is_annotation_event event = false -> display_on event payload l = l.
Proof.
  unfold is_annotation_event, display_on.
  intros [[-> ->]%orb_false_elim ->]%orb_false_elim. reflexivity.
Qed.

Lemma AnnChange_server ts l feed l' :
  AnnChange ts l feed l' -> replay server_on feed l = l'.
Proof.
  destruct 1; try reflexivity.
  apply replay_quiet; [apply server_on_quiet | assumption].
Qed.

Lemma replay_app on feed1 feed2 l :
  replay on (feed1 ++ feed2) l = replay on feed2 (replay on feed1 l).
Proof. unfold replay. apply fold_left_app. Qed.

Lemma delivered_app code acts1 acts2 :
  delivered code (acts1 ++ acts2) = delivered code acts1 ++ delivered code acts2.
Proof. unfold delivered. apply omap_app. Qed.

(** X7.  Over any run, the annotations of a room change only through
    what is broadcast to the room: replaying the events delivered to the
    room (an annotation added is appended, an id removed drops the
    annotations of that id, a clearing empties) on the annotations the
    room had before the run gives the annotations it has after.  No handler
    changes the annotations of a room without telling the room, and none
    announces a change it did not make. *)
Theorem broadcasts_replay_annotations evs : forall s s' log code,
  run evs s = Done (s', log) ->
  replay server_on (delivered code (actions_in log)) (annotations_of (rooms s) code)
  = annotations_of (rooms s') code.
Proof.
  induction evs as [|ev evs IH]; intros s s' log code; simpl.
  - by intros [= <- <-].
  - destruct (step ev s) as [[s1 acts]| |] eqn:Hstep; simpl; try discriminate.
    destruct (run evs s1) as [[s2 log']| |] eqn:Hrun; simpl; try discriminate.
    cbv [mret Outcome_ret]. intros [= <- <-].
    unfold actions_in. simpl. rewrite delivered_app, replay_app.
    rewrite (AnnChange_server _ _ _ _ (step_annotations _ _ _ _ code Hstep)).
    by apply IH.
Qed.

Lemma broadcasts_replay_annotations_witness :
  let clock := mkClock 1700000000000 "2023-11-14T22:13:20.000Z" in
  let later := mkClock 1700000000500 "2023-11-14T22:13:20.500Z" in
  let room := JObj [("roomId", JStr "4821")] in
  let gone := JObj [("roomId", JStr "4821");
                    ("annotationId", JStr "danger_1700000000000")] in
  let evs := [Connection "display-1"; Received clock "display-1" (CreateRoom true);
              Received clock "display-1" (AddDangerZone room);
              Received later "display-1" (AddArrow room);
              Received later "display-1" (RemoveAnnotation gone)] in
  match run evs (initial [draw_for 4821]) with
  | Done (s', log) =>
      replay server_on (delivered "4821" (actions_in log)) []
      = annotations_of (rooms s') "4821" /\
      List.map ann_id (annotations_of (rooms s') "4821") = ["arrow_1700000000500"]
  | _ => False
  end.
Proof.
  intros clock later room gone evs.
  destruct (run evs (initial [draw_for 4821])) as [[s' log]| |] eqn:Hrun.
  - split.
    + apply (broadcasts_replay_annotations evs (initial [draw_for 4821]) s' log "4821").
      exact Hrun.
    + vm_compute in Hrun. injection Hrun as <- _. vm_compute. reflexivity.
  - vm_compute in Hrun. discriminate Hrun.
  - vm_compute in Hrun. discriminate Hrun.
Defined.

(** ** The display and the server *)

Lemma is_str_ne s v : str_strict_ne s v = negb (is_str s v).
Proof. unfold is_str. by rewrite negb_involutive. Qed.

Lemma without_id_cons v a l :
  without_id v (a :: l)
  = if is_str (ann_id a) v then without_id v l else a :: without_id v l.
Proof.
  unfold without_id. simpl. rewrite is_str_ne.
  by destruct (is_str (ann_id a) v).
Qed.

Lemma count_id_cons v a l :
  count_id v (a :: l) = if is_str (ann_id a) v then S (count_id v l) else count_id v l.
Proof. unfold count_id. simpl. by destruct (is_str (ann_id a) v). Qed.

Lemma without_id_length v l :
  (length (without_id v l) + count_id v l = length l)%nat.
Proof.
  induction l as [|a l IH]; [reflexivity|].
  rewrite without_id_cons, count_id_cons.
  destruct (is_str (ann_id a) v); simpl; lia.
Qed.

Lemma removeAnnotation_length v l :
  (length (removeAnnotation v l) + Nat.min 1 (count_id v l) = length l)%nat.
Proof.
  induction l as [|a l IH]; [reflexivity|].
  cbn [removeAnnotation length]. rewrite count_id_cons.
  destruct (is_str (ann_id a) v); cbn [length].
  - rewrite Nat.min_l; lia.
  - lia.
Qed.

Lemma without_id_none v l : count_id v l = 0%nat -> without_id v l = l.
Proof.
  induction l as [|a l IH]; [reflexivity|].
  rewrite without_id_cons, count_id_cons.
  destruct (is_str (ann_id a) v); [discriminate|]. intros H. by rewrite IH.
Qed.

Lemma removeAnnotation_single v l :
  (count_id v l <= 1)%nat -> removeAnnotation v l = without_id v l.
Proof.
  induction l as [|a l IH]; [reflexivity|].
  cbn [removeAnnotation]. rewrite without_id_cons, count_id_cons.
  destruct (is_str (ann_id a) v).
  - intros Hle. symmetry. apply without_id_none. lia.
  - intros Hle. f_equal. by apply IH.
Qed.

(** X8.  Removing an id on the display ([findIndex] and [splice]: the
    first annotation of that id) and removing it on the server ([filter]:
    all of them) give the same sequence exactly when at most one annotation
    has the id; with two or more, the display keeps annotations the server
    has dropped. *)
Theorem display_removal_agrees_iff v l :
  removeAnnotation v l = without_id v l <-> (count_id v l <= 1)%nat.
Proof.
  split; [|apply removeAnnotation_single].
  intros Heq.
  pose proof (without_id_length v l) as Hserver.
  pose proof (removeAnnotation_length v l) as Hdisplay.
  rewrite Heq in Hdisplay.
  destruct (Nat.min_spec 1 (count_id v l)) as [[_ Hmin]|[Hle _]]; [|exact Hle].
  rewrite Hmin in Hdisplay. lia.
Qed.

Lemma NoDup_count_id v l : NoDup (ann_id <$> l) -> (count_id v l <= 1)%nat.
Proof.
  induction l as [|a l IH]; [intros _; unfold count_id; simpl; lia|].
  rewrite fmap_cons, NoDup_cons, count_id_cons. intros [Hnotin Hnd].
  destruct (is_str (ann_id a) v) eqn:Ha; [|by apply IH].
  apply is_str_true in Ha.
  assert (count_id v l = 0%nat) as ->; [|lia].
  clear IH Hnd. induction l as [|b l IH]; [reflexivity|].
  rewrite count_id_cons.
  rewrite fmap_cons, not_elem_of_cons in Hnotin. destruct Hnotin as [Hne Hnotin].
  destruct (is_str (ann_id b) v) eqn:Hb; [|by apply IH].
  apply is_str_true in Hb. congruence.
Qed.

Lemma AnnChange_display ts l feed l' :
  NoDup (ann_id <$> l) ->
  AnnChange ts l feed l' -> replay display_on feed l = l'.
Proof.
  intros Hnd. destruct 1; try reflexivity.
  - apply replay_quiet; [apply display_on_quiet | assumption].
  - simpl. by apply removeAnnotation_single, NoDup_count_id.
Qed.

Lemma without_id_sublist v l : without_id v l `sublist_of` l.
Proof. eapply Removed_sublist, without_id_Removed. Qed.

Lemma AnnChange_ids ts T l feed l' :
  AnnChange ts l feed l' ->
  NoDup (ann_id <$> l) ->
  (forall a, a ∈ l -> exists t, t ∈ T /\ stamped t (ann_id a)) ->
  (forall t, t ∈ ts -> t ∉ T) ->
  NoDup (ann_id <$> l') /\
  forall a, a ∈ l' -> exists t, t ∈ ts ++ T /\ stamped t (ann_id a).
Proof.
  intros Hch Hnd Hmade Hnew.
  assert (Hold : forall a, a ∈ l -> exists t, t ∈ ts ++ T /\ stamped t (ann_id a)).
  { intros a (t & Ht & Hst)%Hmade. exists t. split; [|done].
    apply elem_of_app. by right. }
  destruct Hch as [feed Hquiet|a (t & Ht & Hst)|v|].
  - by split.
  - split.
    + rewrite fmap_app. apply NoDup_app. split; [done|]. split; [|apply NoDup_singleton].
      intros id (b & -> & Hb)%list_elem_of_fmap Hin.
      apply list_elem_of_singleton in Hin.
      destruct (Hmade b Hb) as (t' & Ht' & Hst').
      rewrite Hin in Hst'.
      rewrite (stamped_inj _ _ _ Hst' Hst) in Ht'. by apply (Hnew t).
    + intros b [Hb|Hb]%elem_of_app; [by apply Hold|].
      apply list_elem_of_singleton in Hb as ->.
      exists t. split; [|done]. apply elem_of_app. by left.
  - split.
    + eapply sublist_NoDup; [exact Hnd | apply fmap_sublist, without_id_sublist].
    + intros b Hb. apply Hold.
      by apply (Removed_elem_of _ _ _ (without_id_Removed v l)) in Hb as [? _].
  - split; [apply NoDup_nil_2|]. intros b Hb. by apply elem_of_nil in Hb.
Qed.

Lemma ids_made_at_mono T1 T2 (rooms : gmap string Room) :
  (forall t, t ∈ T1 -> t ∈ T2) -> ids_made_at T1 rooms -> ids_made_at T2 rooms.
Proof.
  intros Hsub Hids code. destruct (Hids code) as [Hnd Hmade].
  split; [done|]. intros a (t & Ht & Hst)%Hmade. exists t. auto.
Qed.

Lemma step_ids ev s s' acts T :
  step ev s = Done (s', acts) ->
  ids_made_at T (rooms s) -> (forall t, t ∈ time_of ev -> t ∉ T) ->
  ids_made_at (time_of ev ++ T) (rooms s').
Proof.
  intros Hstep Hids Hnew code. destruct (Hids code) as [Hnd Hmade].
  eapply AnnChange_ids; [by eapply step_annotations|done..].
Qed.

Lemma times_cons ev evs : times (ev :: evs) = time_of ev ++ times evs.
Proof. reflexivity. Qed.

(** A display that is in the room from the start and a server whose ids
    are distinct go the same way. *)
Lemma run_mirror evs : forall s s' log T code,
  run evs s = Done (s', log) ->
  ids_made_at T (rooms s) -> NoDup (times evs) ->
  (forall t, t ∈ times evs -> t ∉ T) ->
  ids_made_at (times evs ++ T) (rooms s') /\
  replay display_on (delivered code (actions_in log)) (annotations_of (rooms s) code)
  = annotations_of (rooms s') code.
Proof.
  induction evs as [|ev evs IH]; intros s s' log T code; simpl.
  - intros [= <- <-] Hids _ _. by split.
  - destruct (step ev s) as [[s1 acts]| |] eqn:Hstep; simpl; try discriminate.
    destruct (run evs s1) as [[s2 log']| |] eqn:Hrun; simpl; try discriminate.
    cbv [mret Outcome_ret]. intros [= <- <-] Hids Hnd Hnew.
    rewrite times_cons in Hnd, Hnew. rewrite times_cons.
    apply NoDup_app in Hnd as (Hnd1 & Hdisj & Hnd2).
    assert (Hnew1 : forall t, t ∈ time_of ev -> t ∉ T).
    { intros t Ht. apply Hnew, elem_of_app. by left. }
    pose proof (step_ids _ _ _ _ _ Hstep Hids Hnew1) as Hids1.
    destruct (IH s1 s2 log' (time_of ev ++ T) code Hrun Hids1 Hnd2) as [Hids2 Hrep].
    { intros t Ht [Hin|Hin]%elem_of_app.
      - by apply (Hdisj t).
      - apply (Hnew t); [|done]. apply elem_of_app. by right. }
    split.
    + eapply ids_made_at_mono; [|exact Hids2].
      intros t. rewrite !elem_of_app. tauto.
    + unfold actions_in. simpl. rewrite delivered_app, replay_app.
      rewrite (AnnChange_display _ _ _ _ (proj1 (Hids code))
                 (step_annotations _ _ _ _ code Hstep)).
      exact Hrep.
Qed.

Lemma initial_ids tape0 : ids_made_at [] (rooms (initial tape0)).
Proof.
  intros code. unfold annotations_of. simpl. rewrite lookup_empty.
  split; [apply NoDup_nil_2|]. intros a Ha. by apply elem_of_nil in Ha.
Qed.

(** X9.  In a run of the server from its start in which no two messages
    are handled at the same [Date.now()], the ids of the annotations of
    every room are pairwise distinct, and each is a type prefix followed by
    the time of one of the messages. *)
Theorem annotation_ids_distinct evs tape0 s' log :
  run evs (initial tape0) = Done (s', log) ->
  NoDup (times evs) ->
  forall code room, rooms s' !! code = Some room ->
    NoDup (ann_id <$> annotations room) /\
    forall a, a ∈ annotations room -> exists t, t ∈ times evs /\ stamped t (ann_id a).
Proof.
  intros Hrun Hnd code room Hroom.
  destruct (run_mirror evs _ _ _ [] code Hrun (initial_ids tape0) Hnd) as [Hids _].
  { intros t _ Hin. by apply elem_of_nil in Hin. }
  destruct (Hids code) as [Hnodup Hmade].
  unfold annotations_of in Hnodup, Hmade. rewrite Hroom in Hnodup, Hmade.
  split; [done|]. intros a (t & Ht & Hst)%Hmade.
  exists t. split; [|done]. by rewrite app_nil_r in Ht.
Qed.


Lemma annotation_ids_distinct_witness :
  let clock := mkClock 1700000000000 "2023-11-14T22:13:20.000Z" in
  let later := mkClock 1700000000500 "2023-11-14T22:13:20.500Z" in
  let last := mkClock 1700000000900 "2023-11-14T22:13:20.900Z" in
  let room := JObj [("roomId", JStr "4821")] in
  let evs := [Connection "display-1"; Received clock "display-1" (CreateRoom true);
              Received later "display-1" (AddDangerZone room);
              Received last "display-1" (AddDangerZone room)] in
  match run evs (initial [draw_for 4821]) with
  | Done (s', log) =>
      exists room', rooms s' !! "4821" = Some room' /\
                    NoDup (ann_id <$> annotations room')
  | _ => False
  end.
Proof.
  intros clock later last room evs.
  destruct (run evs (initial [draw_for 4821])) as [[s' log]| |] eqn:Hrun.
  - assert (Hroom : is_Some (rooms s' !! "4821")).
    { vm_compute in Hrun. injection Hrun as <- _. vm_compute. by eexists. }
    destruct Hroom as [room' Hroom]. exists room'. split; [exact Hroom|].
    refine (proj1 (annotation_ids_distinct evs [draw_for 4821] s' log Hrun _
                     "4821" room' Hroom)).
    vm_compute. repeat constructor; set_solver.
  - vm_compute in Hrun. discriminate Hrun.
  - vm_compute in Hrun. discriminate Hrun.
Defined.


(** ** Rooms and bindings along a run *)

Lemma step_keeps_room ev s s' acts code room :
  step ev s = Done (s', acts) -> rooms s !! code = Some room ->
  exists room', rooms s' !! code = Some room' /\ createdAt room' = createdAt room.
Proof.
  intros Hstep Hroom.
  destruct ev as [id|clock id msg]; simpl in Hstep.
  - injection Hstep as <- <-. by exists room.
  - destruct (sockets s !! id) as [socket|] eqn:Hsock.
    2:{ injection Hstep as <- <-. by exists room. }
    destruct (handle clock socket msg (rooms s) (tape s)) as [[r tape']| |] eqn:Hh;
      simpl in Hstep; try discriminate.
    cbv [mret Outcome_ret] in Hstep. injection Hstep as <- <-. simpl.
    destruct (is_create msg) eqn:Hmsg.
    + destruct msg; try discriminate Hmsg. simpl in Hh.
      apply create_room_Done in Hh as (code' & _ & _ & _ & _ & Hfree & -> & _).
      exists room. split; [|done].
      rewrite lookup_insert_ne; [done|]. intros ->. congruence.
    + apply handle_frame in Hh
        as (_ & _ & [->|(c & old & new & Hold & -> & Hcreated & _)]);
        [by exists room| |done].
      destruct (decide (c = code)) as [->|Hne].
      * exists new. rewrite lookup_insert_eq. split; [done|]. congruence.
      * exists room. by rewrite lookup_insert_ne.
Qed.

(** X11.  A room never leaves the table and is never created anew: over
    any run, whatever the events (disconnections of both devices
    included), a room that was in the table is still there at the end, with
    the [createdAt] it had. *)
Theorem rooms_persist evs : forall s s' log code room,
  run evs s = Done (s', log) -> rooms s !! code = Some room ->
  exists room', rooms s' !! code = Some room' /\ createdAt room' = createdAt room.
Proof.
  induction evs as [|ev evs IH]; intros s s' log code room; simpl.
  - intros [= <- <-] Hroom. by exists room.
  - destruct (step ev s) as [[s1 acts]| |] eqn:Hstep; simpl; try discriminate.
    destruct (run evs s1) as [[s2 log']| |] eqn:Hrun; simpl; try discriminate.
    cbv [mret Outcome_ret]. intros [= <- <-] Hroom.
    destruct (step_keeps_room _ _ _ _ _ _ Hstep Hroom) as (room1 & Hroom1 & Hc1).
    destruct (IH _ _ _ _ _ Hrun Hroom1) as (room2 & Hroom2 & Hc2).
    exists room2. split; [done|]. congruence.
Qed.

Lemma rooms_persist_witness :
  let room := mkRoom (Some "display-1") (Some "controller-1") [] "t0" in
  let s := mkServer {[ "4821" := room ]} []
             {[ "display-1" := mkSocket "display-1" (Some "4821") (Some Display);
                "controller-1" := mkSocket "controller-1" (Some "4821") (Some Controller) ]} in
  let evs := [Received (mkClock 0 "t") "display-1" Disconnect;
              Received (mkClock 1 "t") "controller-1" Disconnect] in
  match run evs s with
  | Done (s', log) =>
      exists room', rooms s' !! "4821" = Some room' /\ createdAt room' = "t0"
  | _ => False
  end.
Proof.
  intros room s evs.
  destruct (run evs s) as [[s' log]| |] eqn:Hrun.
  - apply (rooms_persist evs s s' log "4821" room Hrun). vm_compute. reflexivity.
  - vm_compute in Hrun. discriminate Hrun.
  - vm_compute in Hrun. discriminate Hrun.
Defined.

(** What a handler leaves in the fields of its socket: what was there, or
    a room of the table and a device type. *)
Lemma handle_socket clock socket msg (rooms : gmap string Room) tape r tape' :
  handle clock socket msg rooms tape = Done (r, tape') ->
  socket_of r = socket \/
  exists code d, socket_of r = bound socket code d /\ is_Some (rooms_of r !! code).
Proof.
  intros H.
  destruct (is_create msg) eqn:Hmsg.
  - destruct msg; try discriminate Hmsg. simpl in H.
    apply create_room_Done in H as (code & _ & _ & _ & _ & _ & -> & -> & _).
    right. exists code, Display. split; [done|]. rewrite lookup_insert_eq. by eexists.
  - destruct msg; try discriminate Hmsg; handle_cases H;
      cbv [mret Outcome_ret] in H; injection H as <- <-; simpl;
      first [ by left
            | right; eexists _, _; split; [reflexivity|];
              rewrite lookup_insert_eq; by eexists ].
Qed.

Lemma step_dom_grows ev s s' acts code :
  step ev s = Done (s', acts) -> is_Some (rooms s !! code) -> is_Some (rooms s' !! code).
Proof.
  intros Hstep [room Hroom].
  destruct (step_keeps_room _ _ _ _ _ _ Hstep Hroom) as (room' & Hroom' & _).
  by exists room'.
Qed.

Lemma step_bindings ev s s' acts :
  step ev s = Done (s', acts) ->
  (forall id socket code, sockets s !! id = Some socket -> roomId socket = Some code ->
     is_Some (rooms s !! code) /\ is_Some (deviceType socket)) ->
  forall id socket code, sockets s' !! id = Some socket -> roomId socket = Some code ->
    is_Some (rooms s' !! code) /\ is_Some (deviceType socket).
Proof.
  intros Hstep Hinv id socket code Hsock Hid.
  assert (Hold : forall id0, sockets s !! id0 = Some socket ->
            is_Some (rooms s' !! code) /\ is_Some (deviceType socket)).
  { intros id0 Hs. destruct (Hinv id0 socket code Hs Hid) as [Hr Hd].
    split; [|done]. by eapply step_dom_grows. }
  destruct ev as [id'|clock id' msg]; simpl in Hstep.
  - injection Hstep as <- <-. simpl in *.
    apply lookup_insert_Some in Hsock as [[_ <-]|[_ Hs]]; [discriminate Hid|].
    by eapply Hold.
  - destruct (sockets s !! id') as [socket'|] eqn:Hsock'.
    2:{ injection Hstep as <- <-. by eapply Hold. }
    destruct (handle clock socket' msg (rooms s) (tape s)) as [[r tape']| |] eqn:Hh;
      simpl in Hstep; try discriminate.
    pose proof Hstep as Hstep'.
    cbv [mret Outcome_ret] in Hstep. injection Hstep as <- <-. simpl in *.
    assert (Hnew : socket = socket_of r ->
              is_Some (rooms_of r !! code) /\ is_Some (deviceType socket)).
    { intros ->. destruct (handle_socket _ _ _ _ _ _ _ Hh) as [Heq|(c & d & Heq & Hc)].
      - apply (Hold id'). by rewrite Heq.
      - rewrite Heq in Hid |- *. simpl in Hid. injection Hid as <-.
        split; [exact Hc | by eexists]. }
    destruct msg;
      try (apply lookup_insert_Some in Hsock as [[_ Heq]|[_ Hs]];
           [by apply Hnew | by eapply Hold]).
    apply lookup_delete_Some in Hsock as [_ Hs]. by eapply Hold.
Qed.

(** X12.  In every state the server reaches from its start, a socket
    that records a room records a room of the table, and a device type
    with it: the room its [disconnect] handler looks up is always found. *)
Theorem bound_sockets_name_rooms evs tape0 s' log :
  run evs (initial tape0) = Done (s', log) ->
  forall id socket code, sockets s' !! id = Some socket -> roomId socket = Some code ->
    is_Some (rooms s' !! code) /\ is_Some (deviceType socket).
Proof.
  assert (Hgen : forall evs s s' log,
            run evs s = Done (s', log) ->
            (forall id socket code, sockets s !! id = Some socket ->
               roomId socket = Some code ->
               is_Some (rooms s !! code) /\ is_Some (deviceType socket)) ->
            forall id socket code, sockets s' !! id = Some socket ->
              roomId socket = Some code ->
              is_Some (rooms s' !! code) /\ is_Some (deviceType socket)).
  { clear. induction evs as [|ev evs IH]; intros s s' log; simpl.
    - by intros [= <- <-].
    - destruct (step ev s) as [[s1 acts]| |] eqn:Hstep; simpl; try discriminate.
      destruct (run evs s1) as [[s2 log']| |] eqn:Hrun; simpl; try discriminate.
      cbv [mret Outcome_ret]. intros [= <- <-] Hinv.
      eapply IH; [exact Hrun|]. by eapply step_bindings. }
  intros Hrun. eapply Hgen; [exact Hrun|].
  intros id socket code Hs. simpl in Hs. by rewrite lookup_empty in Hs.
Qed.

Lemma bound_sockets_name_rooms_witness :
  let clock := mkClock 1700000000000 "2023-11-14T22:13:20.000Z" in
  let evs := [Connection "display-1"; Received clock "display-1" (CreateRoom true);
              Connection "controller-1";
              Received clock "controller-1" (JoinRoom (JStr "4821") true)] in
  match run evs (initial [draw_for 4821]) with
  | Done (s', log) =>
      sockets s' !! "controller-1"
      = Some (mkSocket "controller-1" (Some "4821") (Some Controller)) /\
      is_Some (rooms s' !! "4821")
  | _ => False
  end.
Proof.
  intros clock evs.
  destruct (run evs (initial [draw_for 4821])) as [[s' log]| |] eqn:Hrun.
  - assert (Hsock : sockets s' !! "controller-1"
                    = Some (mkSocket "controller-1" (Some "4821") (Some Controller))).
    { vm_compute in Hrun. injection Hrun as <- _. vm_compute. reflexivity. }
    split; [exact Hsock|].
    apply (bound_sockets_name_rooms evs [draw_for 4821] s' log Hrun "controller-1"
             (mkSocket "controller-1" (Some "4821") (Some Controller)) "4821");
      [exact Hsock | reflexivity].
  - vm_compute in Hrun. discriminate Hrun.
  - vm_compute in Hrun. discriminate Hrun.
Defined.

Lemma step_join_room s clock id socket code room callback :
  sockets s !! id = Some socket -> rooms s !! code = Some room ->
  step (Received clock id (JoinRoom (JStr code) callback)) s
  = Done (mkServer
            (<[code := set_controllerSocket (Some (sock_id socket)) room]> (rooms s))
            (tape s)
            (<[id := bound socket code Controller]> (sockets s)),
          Join (sock_id socket) code
          :: Emit (displaySocket room) "controller-connected" NoPayload
          :: ack callback (ack_annotations_only (annotations room))).
Proof.
  intros Hsock Hroom. unfold step. rewrite Hsock.
  cbn [handle]. unfold join_room. rewrite (rooms_get_str _ _ _ Hroom). reflexivity.
Qed.

Lemma step_disconnect s clock id socket code room d :
  sockets s !! id = Some socket -> roomId socket = Some code -> code <> "" ->
  deviceType socket = Some d -> rooms s !! code = Some room ->
  exists acts,
    step (Received clock id Disconnect) s
    = Done (mkServer (<[code := set_slot d None room]> (rooms s)) (tape s)
              (delete id (sockets s)), acts).
Proof.
  intros Hsock Hid Hcode Hdev Hroom. unfold step. rewrite Hsock.
  cbn [handle]. unfold disconnect, roomId_value. rewrite Hid, Hdev.
  rewrite (rooms_get_str _ _ _ Hroom).
  replace (truthy (JStr code)) with true
    by (symmetry; apply negb_true_iff, String.eqb_neq, Hcode).
  destruct d; eexists; reflexivity.
Qed.

(** X13.  The disconnection of a controller that a later joiner has
    replaced empties the controller slot all the same: after [a] and then
    [b] have joined a room and [a] disconnects, the room has no controller,
    although [b] is connected and its socket still records it as the
    controller of the room; the handler does not compare the slot with the
    socket that leaves. *)
Theorem replaced_controller_disconnect_unbinds s c1 c2 c3 a b sa sb code room cb1 cb2 :
  sockets s !! a = Some sa -> sockets s !! b = Some sb -> a <> b ->
  rooms s !! code = Some room -> code <> "" ->
  exists s' log,
    run [Received c1 a (JoinRoom (JStr code) cb1);
         Received c2 b (JoinRoom (JStr code) cb2);
         Received c3 a Disconnect] s = Done (s', log) /\
    rooms s' !! code = Some (set_controllerSocket None room) /\
    sockets s' !! b = Some (bound sb code Controller) /\
    sockets s' !! a = None.
Proof.
  intros Ha Hb Hab Hroom Hcode.
  pose proof (step_join_room s c1 a sa code room cb1 Ha Hroom) as H1.
  set (s1 := mkServer
               (<[code := set_controllerSocket (Some (sock_id sa)) room]> (rooms s))
               (tape s) (<[a := bound sa code Controller]> (sockets s))) in H1.
  assert (Hb1 : sockets s1 !! b = Some sb) by (simpl; by rewrite lookup_insert_ne).
  assert (Hroom1 : rooms s1 !! code
                   = Some (set_controllerSocket (Some (sock_id sa)) room))
    by (simpl; by rewrite lookup_insert_eq).
  pose proof (step_join_room s1 c2 b sb code _ cb2 Hb1 Hroom1) as H2.
  set (s2 := mkServer _ _ _) in H2.
  assert (Ha2 : sockets s2 !! a = Some (bound sa code Controller)).
  { unfold s2. simpl. by rewrite lookup_insert_ne, lookup_insert_eq. }
  assert (Hroom2 : rooms s2 !! code
                   = Some (set_controllerSocket (Some (sock_id sb))
                             (set_controllerSocket (Some (sock_id sa)) room)))
    by (unfold s2; simpl; by rewrite lookup_insert_eq).
  destruct (step_disconnect s2 c3 a _ code _ Controller Ha2 eq_refl Hcode eq_refl Hroom2)
    as (acts3 & H3).
  eexists _, _. split.
  - cbn [run]. rewrite H1. cbn [mbind Outcome_bind]. rewrite H2.
    cbn [mbind Outcome_bind]. rewrite H3. reflexivity.
  - cbn [rooms sockets]. split; [|split].
    + by rewrite lookup_insert_eq.
    + unfold s2. cbn [sockets]. by rewrite lookup_delete_ne, lookup_insert_eq.
    + apply lookup_delete_eq.
Qed.

Lemma replaced_controller_disconnect_unbinds_witness :
  let room := mkRoom (Some "display-1") None [] "t" in
  let s := mkServer {[ "4821" := room ]} []
             {[ "a" := mkSocket "a" None None; "b" := mkSocket "b" None None ]} in
  let clock := mkClock 0 "t" in
  exists s' log,
    run [Received clock "a" (JoinRoom (JStr "4821") true);
         Received clock "b" (JoinRoom (JStr "4821") true);
         Received clock "a" Disconnect] s = Done (s', log) /\
    rooms s' !! "4821" = Some room /\
    sockets s' !! "b" = Some (mkSocket "b" (Some "4821") (Some Controller)).
Proof.
  intros room s clock.
  destruct (replaced_controller_disconnect_unbinds s clock clock clock "a" "b"
              (mkSocket "a" None None) (mkSocket "b" None None) "4821" room true true)
    as (s' & log & Hrun & Hroom & Hb & _); try reflexivity; try discriminate.
  exists s', log. split; [exact Hrun|]. split; [exact Hroom | exact Hb].
Defined.

(** ** The controller's check of the room code *)






(** ** Leaving and coming back *)

(** X15.  A device that leaves can be replaced once: after the
    [disconnect] of the socket recorded as the device [d] of a room, a
    [reconnect-room] for that role on the code binds the new socket and
    acknowledges success with the annotations the room had, which the
    disconnection did not touch; a further [reconnect-room] for the same
    role is then refused with [Device type already connected] and changes
    nothing. *)
Theorem disconnect_then_reconnect socket (rooms : gmap string Room) code room d
    fresh later fields callback :
  roomId socket = Some code -> code <> "" -> deviceType socket = Some d ->
  rooms !! code = Some room ->
  assoc "roomId" fields = JStr code ->
  assoc "deviceType" fields = JStr (device_name d) ->
  sock_id fresh <> "" ->
  exists r1 r2 notes a,
    disconnect socket rooms = Done r1 /\
    reconnect_room fresh (JObj fields) callback (rooms_of r1) = Done r2 /\
    rooms_of r2 = <[code := set_slot d (Some (sock_id fresh)) room]> rooms /\
    actions_of r2 = Join (sock_id fresh) code :: notes ++ ack callback a /\
    success a = true /\ ack_annotations a = Some (annotations room) /\
    reconnect_room later (JObj fields) callback (rooms_of r2)
    = Done (mkReply (rooms_of r2) later
              (ack callback (ack_failure "Device type already connected"))).
Proof.
  intros Hid Hcode Hdev Hroom Hfid Hfrole Hfresh.
  assert (Hr1 : disconnect socket rooms
                = Done (mkReply (<[code := set_slot d None room]> rooms) socket
                          (if truthy_str (slot (peer d) room)
                           then [Emit (slot (peer d) room) (disconnected_event d) NoPayload]
                           else []))).
  { unfold disconnect, roomId_value. rewrite Hid, Hdev. simpl. rewrite Hroom.
    replace (negb (String.eqb code "")) with true
      by (symmetry; apply negb_true_iff, String.eqb_neq, Hcode).
    by destruct d. }
  set (rooms1 := <[code := set_slot d None room]> rooms) in Hr1.
  assert (Hroom1 : rooms1 !! code = Some (set_slot d None room))
    by apply lookup_insert_eq.
  assert (Hempty : slot d (set_slot d None room) = None) by (by destruct d).
  destruct (reconnect_room_empty_slot fresh fields callback rooms1 d code _
              Hfrole Hfid Hroom1 Hempty)
    as (r2 & notes & a & Hr2 & Hrooms2 & _ & Hacts & _ & Hok & Hanns & _).
  exists (mkReply rooms1 socket
            (if truthy_str (slot (peer d) room)
             then [Emit (slot (peer d) room) (disconnected_event d) NoPayload]
             else [])), r2, notes, a.
  split; [exact Hr1|]. split; [exact Hr2|].
  assert (Hrooms2' : rooms_of r2 = <[code := set_slot d (Some (sock_id fresh)) room]> rooms).
  { rewrite Hrooms2. unfold rooms1. rewrite insert_insert_eq. by destruct d. }
  split; [exact Hrooms2'|]. split; [exact Hacts|]. split; [exact Hok|].
  split; [by destruct d|].
  rewrite Hrooms2'. unfold reconnect_room, prop. simpl.
  rewrite Hfid. simpl. rewrite lookup_insert_eq. simpl. rewrite Hfrole.
  pose proof (truthy_str_Some _ Hfresh) as Hne. simpl in Hne.
  destruct d; simpl; by rewrite Hne.
Qed.

Lemma disconnect_then_reconnect_witness :
  let a0 := mkAnnotation "danger_1" (Danger JNull (JNum 5) (JStr "Danger Zone")) "t1" in
  let room := mkRoom (Some "display-1") (Some "controller-1") [a0] "t" in
  let rooms : gmap string Room := {[ "4821" := room ]} in
  let fields := [("roomId", JStr "4821"); ("deviceType", JStr "display")] in
  exists r1 r2,
    disconnect (mkSocket "display-1" (Some "4821") (Some Display)) rooms = Done r1 /\
    reconnect_room (mkSocket "display-2" None None) (JObj fields) true (rooms_of r1)
    = Done r2 /\
    rooms_of r2 = <[ "4821" := mkRoom (Some "display-2") (Some "controller-1") [a0] "t" ]> rooms.
Proof.
  intros a0 room rooms fields.
  destruct (disconnect_then_reconnect (mkSocket "display-1" (Some "4821") (Some Display))
              rooms "4821" room Display (mkSocket "display-2" None None)
              (mkSocket "display-3" None None) fields true)
    as (r1 & r2 & _ & _ & Hr1 & Hr2 & Hrooms & _);
    try reflexivity; try discriminate.
  exists r1, r2. split; [exact Hr1|]. split; [exact Hr2 | exact Hrooms].
Defined.

(** ** The room files *)

Lemma handle_saves clock socket msg (rooms : gmap string Room) tape r tape' code room :
  handle clock socket msg rooms tape = Done (r, tape') ->
  Save code room ∈ actions_of r ->
  rooms_of r !! code = Some room /\ edits_annotations msg = true.
Proof.
  intros H Hin.
  destruct (is_create msg) eqn:Hmsg.
  - destruct msg; try discriminate Hmsg. simpl in H.
    apply create_room_Done in H as (code' & _ & _ & _ & _ & _ & _ & _ & Hacts).
    rewrite Hacts in Hin. destruct callback; simpl in Hin;
      repeat (apply elem_of_cons in Hin as [Hin|Hin]; [discriminate Hin|]);
      by apply elem_of_nil in Hin.
  - destruct msg; try discriminate Hmsg; handle_cases H;
      cbv [mret Outcome_ret] in H; injection H as <- <-; subst; simpl in *;
      rewrite ?saveRoomState_insert in Hin; simpl in Hin;
      try (destruct callback; simpl in Hin);
      repeat match type of Hin with
        | _ ∈ (if ?b then _ else _) => destruct b; simpl in Hin
        | _ ∈ _ ++ _ => apply elem_of_app in Hin as [Hin|Hin]
        | _ ∈ _ :: _ => apply elem_of_cons in Hin as [Hin|Hin]; [try discriminate Hin|]
        end;
      try (by apply elem_of_nil in Hin);
      injection Hin as <- <-; (split; [apply lookup_insert_eq | reflexivity]).
Qed.

(** X16.  What is written to the file of a room is the room as it is in
    the table once the event is handled, and only the handlers that edit
    annotations (the four [add-...], [clear-annotations],
    [remove-annotation]) write it: [create-room], [join-room],
    [reconnect-room] and [disconnect] change the table without writing
    anything, so the slots in a file can be out of date. *)
Theorem saved_room_is_table_room ev s s' acts code room :
  step ev s = Done (s', acts) ->
  Save code room ∈ acts ->
  rooms s' !! code = Some room /\
  exists clock id msg, ev = Received clock id msg /\ edits_annotations msg = true.
Proof.
  destruct ev as [id|clock id msg]; simpl.
  - intros [= <- <-] Hin. by apply elem_of_nil in Hin.
  - destruct (sockets s !! id) as [socket|] eqn:Hsock.
    2:{ intros [= <- <-] Hin. by apply elem_of_nil in Hin. }
    destruct (handle clock socket msg (rooms s) (tape s)) as [[r tape']| |] eqn:Hh;
      simpl; try discriminate.
    cbv [mret Outcome_ret]. intros [= <- <-] Hin. simpl.
    destruct (handle_saves _ _ _ _ _ _ _ _ _ Hh Hin) as [Hroom Hedit].
    split; [exact Hroom|]. by exists clock, id, msg.
Qed.

Lemma saved_room_is_table_room_witness :
  let room := mkRoom (Some "display-1") (Some "controller-1") [] "t" in
  let s := mkServer {[ "4821" := room ]} []
             {[ "controller-1" := mkSocket "controller-1" (Some "4821") (Some Controller) ]} in
  let ev := Received (mkClock 1700000000000 "2023-11-14T22:13:20.000Z") "controller-1"
              (AddDangerZone (JObj [("roomId", JStr "4821")])) in
  match step ev s with
  | Done (s', acts) =>
      exists saved, Save "4821" saved ∈ acts /\ rooms s' !! "4821" = Some saved
  | _ => False
  end.
Proof.
  intros room s ev.
  destruct (step ev s) as [[s' acts]| |] eqn:Hstep.
  - pose proof Hstep as Hcomputed. vm_compute in Hcomputed.
    injection Hcomputed as Hs' Hacts.
    assert (Hin : exists saved, Save "4821" saved ∈ acts).
    { rewrite <- Hacts. eexists. by left. }
    destruct Hin as [saved Hin]. exists saved. split; [exact Hin|].
    exact (proj1 (saved_room_is_table_room ev s s' acts "4821" saved Hstep Hin)).
  - vm_compute in Hstep. discriminate Hstep.
  - vm_compute in Hstep. discriminate Hstep.
Defined.

(** ** Messages that name no room *)

(** X17.  A message whose [roomId] is not the code of a room of the
    table (a code that was never handed out, a number, a missing field, a
    message that is a string) is dropped: the table, the socket and the
    random source are as before and nothing is emitted, saved or joined.
    Only [reconnect-room] answers, with [Room not found]; the other
    handlers give the sender no sign that the message was dropped. *)
Theorem unknown_room_is_ignored clock socket msg data v (rooms : gmap string Room) tape :
  msg_data msg = Some data -> get data "roomId" = Some v ->
  (forall code, v = JStr code -> rooms !! code = None) ->
  exists acts,
    handle clock socket msg rooms tape = Done (mkReply rooms socket acts, tape) /\
    (forall callback, msg = ReconnectRoom data callback ->
       acts = ack callback (ack_failure "Room not found")) /\
    ((forall callback, msg <> ReconnectRoom data callback) -> acts = []).
Proof.
  intros Hdata Hv Habsent.
  assert (Hget : rooms_get rooms v = None).
  { destruct (rooms_get rooms v) as [[code room]|] eqn:Hget; [|reflexivity].
    apply rooms_get_Some in Hget as [-> Hroom].
    by rewrite (Habsent code eq_refl) in Hroom. }
  destruct msg; try discriminate Hdata; injection Hdata as ->; simpl;
    unfold tablet_movement, touch_movement, toggle_flashlight,
      add_danger_zone, add_arrow, add_incident, add_restricted_zone,
      clear_annotations, remove_annotation, camera_position,
      request_placement, placement_position, reconnect_room, prop;
    rewrite Hv; simpl; rewrite Hget; simpl;
    eexists; (split; [reflexivity|]);
    (split; [intros cb' Heq; try discriminate Heq; by injection Heq as <-
            | intros Hne; try reflexivity; by destruct (Hne callback)]).
Qed.

Lemma unknown_room_is_ignored_witness :
  let rooms : gmap string Room := {[ "4821" := mkRoom (Some "d") None [] "t" ]} in
  let data := JObj [("roomId", JNum 4821); ("label", JStr "Exit")] in
  handle (mkClock 0 "t") (mkSocket "c" None None) (AddArrow data) rooms []
  = Done (mkReply rooms (mkSocket "c" None None) [], []).
Proof.
  intros rooms data.
  destruct (unknown_room_is_ignored (mkClock 0 "t") (mkSocket "c" None None)
              (AddArrow data) data (JNum 4821) rooms [])
    as (acts & Hdone & _ & Hquiet).
  - reflexivity.
  - reflexivity.
  - intros code Hcode. discriminate Hcode.
  - rewrite Hquiet in Hdone; [exact Hdone|]. intros callback Heq. discriminate Heq.
Defined.

(** ** Null tests *)

(** X18.  The handlers test the slots of a room and [socket.roomId] for
    truthiness.  In every state reached from the start, with values of
    [Math.random()] in [0, 1) and connections that have a non-empty id,
    these tests are tests for [null]: no key of the table and no socket id
    held by a slot is the empty string, so a slot is falsy exactly when it
    is [null]. *)
Theorem reachable_slots_falsy_iff_null evs tape0 s' log :
  Forall valid_draw tape0 -> Forall connection_named evs ->
  run evs (initial tape0) = Done (s', log) ->
  forall code room, rooms s' !! code = Some room ->
    code <> "" /\
    forall d, truthy_str (slot d room) = not_null (slot d room).
Proof.
  intros Hvalid Hevs Hrun code room Hroom.
  destruct (initial_named tape0) as [Hrooms0 Hsockets0].
  destruct (run_named evs (initial tape0) s' log Hvalid Hrooms0 Hsockets0 Hevs Hrun)
    as [Hrooms _].
  destruct (Hrooms code room Hroom) as [Hcode Hids].
  split; [exact Hcode|]. intros d.
  destruct (slot d room) as [id|] eqn:Hslot; [|reflexivity].
  apply truthy_str_Some. by eapply Hids.
Qed.

Lemma reachable_slots_falsy_iff_null_witness :
  let clock := mkClock 1700000000000 "2023-11-14T22:13:20.000Z" in
  let evs := [Connection "display-1"; Received clock "display-1" (CreateRoom true);
              Received clock "display-1" Disconnect] in
  match run evs (initial [draw_for 4821]) with
  | Done (s', log) =>
      exists room, rooms s' !! "4821" = Some room /\
                   truthy_str (slot Display room) = not_null (slot Display room)
  | _ => False
  end.
Proof.
  intros clock evs.
  destruct (run evs (initial [draw_for 4821])) as [[s' log]| |] eqn:Hrun.
  - assert (Hroom : is_Some (rooms s' !! "4821")).
    { vm_compute in Hrun. injection Hrun as <- _. vm_compute. by eexists. }
    destruct Hroom as [room Hroom]. exists room. split; [exact Hroom|].
    refine (proj2 (reachable_slots_falsy_iff_null evs [draw_for 4821] s' log _ _ Hrun
                     "4821" room Hroom) Display).
    + repeat constructor; unfold draw_for, Qle, Qlt; simpl; lia.
    + repeat constructor. discriminate.
  - vm_compute in Hrun. discriminate Hrun.
  - vm_compute in Hrun. discriminate Hrun.
Defined.
